(** * SolrClient: the response wrapper [SolrResponse] of [solrresp.py]

    A shallow embedding of [SolrClient/solrresp.py] and the properties of
    its constructor and accessors.

    Data model.  The constructor receives an already decoded JSON
    document.  [json] is the float-free fragment of what Python's
    [json.loads] produces: [None], [bool], [int], [str], [list] and
    [dict] with string keys (insertion ordered).  Strings are sequences of
    code points below 256, so one [ascii] is one code point.
    Floating-point numbers are outside the model.

    Effects.  Python exceptions are values of [exn]; a computation that can
    raise returns a [result].  The accessors memoise on the instance, so
    they take the instance and return the updated instance with the
    outcome.  The constructor rewrites documents in place; the document
    list is the very object reachable from [self.data], so the model
    writes the rewritten list back into [data]. *)

From Stdlib Require Import ZArith List String Ascii Bool Arith Lia.
From Stdlib Require Import DecimalString DecimalPos.
Import ListNotations.

Local Open Scope string_scope.
Local Open Scope list_scope.
Local Open Scope Z_scope.

(** ** Values and exceptions *)

#[local] Set Warnings "-register-all".

Inductive json : Type :=
| JNull
| JBool (b : bool)
| JInt (n : Z)
| JStr (s : string)
| JList (l : list json)
| JDict (d : list (string * json)).

Inductive exn : Type :=
| KeyError
| IndexError
| TypeError
| ValueError
| AttributeError (name : string)
| SolrResponseError (msg : string).

Inductive result (A : Type) : Type :=
| Ok (a : A)
| Err (e : exn).

Arguments Ok {A} a.
Arguments Err {A} e.

Definition bind {A B : Type} (r : result A) (k : A -> result B) : result B :=
  match r with
  | Ok a => k a
  | Err e => Err e
  end.

Notation "x <- e ;; k" := (bind e (fun x => k))
  (at level 61, e at next level, right associativity).

Definition is_ok {A : Type} (r : result A) : bool :=
  match r with Ok _ => true | Err _ => false end.

(** ** The Python operations the module relies on *)

Module Py.

(** *** Dictionaries with string keys: [dict] as produced by the decoder *)

Definition sdict (V : Type) : Type := list (string * V).

Fixpoint dict_get {V : Type} (k : string) (d : sdict V) : option V :=
  match d with
  | [] => None
  | (k', v) :: tl => if String.eqb k k' then Some v else dict_get k tl
  end.

Definition dict_mem {V : Type} (k : string) (d : sdict V) : bool :=
  match dict_get k d with Some _ => true | None => false end.

(** [d[k] = v]: an existing key keeps its position, a new key goes last. *)
Fixpoint dict_set {V : Type} (k : string) (v : V) (d : sdict V) : sdict V :=
  match d with
  | [] => [(k, v)]
  | (k', v') :: tl =>
      if String.eqb k k' then (k', v) :: tl else (k', v') :: dict_set k v tl
  end.

Definition dict_keys {V : Type} (d : sdict V) : list string := map fst d.

(** *** Dictionaries keyed by decoded values: the derived views *)

(** Only [None], [bool], [int] and [str] hash; [list] and [dict] raise. *)
Definition hashable (j : json) : bool :=
  match j with
  | JList _ | JDict _ => false
  | _ => true
  end.

(** Equality of keys: [True == 1] and [False == 0] in Python. *)
Definition key_eqb (a b : json) : bool :=
  match a, b with
  | JNull, JNull => true
  | JStr s, JStr t => String.eqb s t
  | JInt n, JInt m => Z.eqb n m
  | JInt n, JBool c => Z.eqb n (Z.b2z c)
  | JBool c, JInt m => Z.eqb (Z.b2z c) m
  | JBool c, JBool c' => Bool.eqb c c'
  | _, _ => false
  end.

Definition odict (V : Type) : Type := list (json * V).

Fixpoint od_get {V : Type} (k : json) (d : odict V) : option V :=
  match d with
  | [] => None
  | (k', v) :: tl => if key_eqb k k' then Some v else od_get k tl
  end.

(** Insertion into a hashed mapping: the first inserted key object and its
    position stay, the value is replaced. *)
Fixpoint od_put {V : Type} (k : json) (v : V) (d : odict V) : odict V :=
  match d with
  | [] => [(k, v)]
  | (k', v') :: tl =>
      if key_eqb k k' then (k', v) :: tl else (k', v') :: od_put k v tl
  end.

Definition od_set {V : Type} (k : json) (v : V) (d : odict V)
  : result (odict V) :=
  if hashable k then Ok (od_put k v d) else Err TypeError.

(** [dict(pairs)] and [OrderedDict(pairs)]: insert in order. *)
Fixpoint od_of_pairs {V : Type} (acc : odict V) (ps : list (json * V))
  : result (odict V) :=
  match ps with
  | [] => Ok acc
  | (k, v) :: tl => acc' <- od_set k v acc ;; od_of_pairs acc' tl
  end.

(** [d.update(other)] for [other] a mapping: its keys hashed already. *)
Definition od_update {V : Type} (d other : odict V) : odict V :=
  fold_left (fun acc kv => od_put (fst kv) (snd kv) acc) other d.

(** *** Subscription, iteration, membership *)

(** Index of a sequence of length [len]: negative indices count from the
    end. *)
Definition norm_index (i : Z) (len : nat) : option nat :=
  let n := Z.of_nat len in
  let j := if i <? 0 then i + n else i in
  if (0 <=? j) && (j <? n) then Some (Z.to_nat j) else None.

Definition as_index (key : json) : option Z :=
  match key with
  | JInt i => Some i
  | JBool b => Some (Z.b2z b)
  | _ => None
  end.

Definition chars (s : string) : list json :=
  map (fun c => JStr (String c EmptyString)) (list_ascii_of_string s).

(** [c[key]] *)
Definition getitem (c key : json) : result json :=
  match c with
  | JDict d =>
      match key with
      | JStr k => match dict_get k d with Some v => Ok v | None => Err KeyError end
      | JList _ | JDict _ => Err TypeError
      | _ => Err KeyError
      end
  | JList l =>
      match as_index key with
      | Some i =>
          match norm_index i (List.length l) with
          | Some n => match nth_error l n with Some v => Ok v | None => Err IndexError end
          | None => Err IndexError
          end
      | None => Err TypeError
      end
  | JStr s =>
      match as_index key with
      | Some i =>
          match norm_index i (String.length s) with
          | Some n => match nth_error (chars s) n with Some v => Ok v | None => Err IndexError end
          | None => Err IndexError
          end
      | None => Err TypeError
      end
  | _ => Err TypeError
  end.

Fixpoint list_put {A : Type} (n : nat) (v : A) (l : list A) : list A :=
  match l, n with
  | [], _ => []
  | _ :: tl, O => v :: tl
  | x :: tl, S n' => x :: list_put n' v tl
  end.

(** Writing through a subscript that was just read: [c[key] = v] where
    [c[key]] exists.  Strings and scalars do not support assignment. *)
Definition putitem (c key v : json) : result json :=
  match c with
  | JDict d =>
      match key with
      | JStr k => Ok (JDict (dict_set k v d))
      | _ => Err TypeError
      end
  | JList l =>
      match as_index key with
      | Some i =>
          match norm_index i (List.length l) with
          | Some n => Ok (JList (list_put n v l))
          | None => Err IndexError
          end
      | None => Err TypeError
      end
  | _ => Err TypeError
  end.

(** [for x in c] *)
Definition iter (c : json) : result (list json) :=
  match c with
  | JDict d => Ok (map JStr (dict_keys d))
  | JList l => Ok l
  | JStr s => Ok (chars s)
  | _ => Err TypeError
  end.

Fixpoint is_substring (k s : string) : bool :=
  if String.prefix k s then true
  else match s with
       | EmptyString => false
       | String _ tl => is_substring k tl
       end.

(** ['k' in c] for a string literal ['k'] *)
Definition contains (k : string) (c : json) : result bool :=
  match c with
  | JDict d => Ok (dict_mem k d)
  | JList l =>
      Ok (existsb (fun e => match e with JStr s => String.eqb s k | _ => false end) l)
  | JStr s => Ok (is_substring k s)
  | _ => Err TypeError
  end.

(** [len(c)] *)
Definition len (c : json) : result Z :=
  match c with
  | JDict d => Ok (Z.of_nat (List.length d))
  | JList l => Ok (Z.of_nat (List.length l))
  | JStr s => Ok (Z.of_nat (String.length s))
  | _ => Err TypeError
  end.

(** [c.keys()]: only mappings have it. *)
Definition keys (c : json) : result (list string) :=
  match c with
  | JDict d => Ok (dict_keys d)
  | _ => Err (AttributeError "keys")
  end.

(** [type(c) == dict], [type(c) is list], [type(c) == str] *)
Definition is_dict (c : json) : bool := match c with JDict _ => true | _ => false end.
Definition is_list (c : json) : bool := match c with JList _ => true | _ => false end.

(** [field + '_suffix'] *)
Definition add_str (field : json) (suffix : string) : result string :=
  match field with
  | JStr s => Ok (s ++ suffix)%string
  | _ => Err TypeError
  end.

(** *** [str.isdigit] and [int(str)] *)

Definition is_decimal_char (c : ascii) : bool :=
  let n := nat_of_ascii c in (48 <=? n)%nat && (n <=? 57)%nat.

(** Below 256 the digits of [str.isdigit] are 0-9 and the superscripts
    U+00B2, U+00B3 and U+00B9, which [int] rejects. *)
Definition is_digit_char (c : ascii) : bool :=
  let n := nat_of_ascii c in
  is_decimal_char c || (n =? 178)%nat || (n =? 179)%nat || (n =? 185)%nat.

Fixpoint all_chars (p : ascii -> bool) (s : string) : bool :=
  match s with
  | EmptyString => true
  | String c tl => p c && all_chars p tl
  end.

Definition isdigit (s : string) : bool :=
  match s with
  | EmptyString => false
  | _ => all_chars is_digit_char s
  end.

Definition digit_value (c : ascii) : Z := Z.of_nat (nat_of_ascii c) - 48.

Fixpoint decimal_value (acc : Z) (s : string) : Z :=
  match s with
  | EmptyString => acc
  | String c tl => decimal_value (10 * acc + digit_value c) tl
  end.

(** [sys.get_int_max_str_digits()]: the interpreter's limit on the number
    of digits of a decimal string that [int] converts. *)
Definition max_str_digits : Z := 4300.

(** Whether [int(s)] returns, for a string for which [s.isdigit()] holds:
    every character is a decimal digit and the digits, leading zeros
    included, are no more than the limit. *)
Definition int_accepts (s : string) : bool :=
  all_chars is_decimal_char s && (Z.of_nat (String.length s) <=? max_str_digits).

(** [int(s)] on a string for which [s.isdigit()] holds. *)
Definition int_of_str (s : string) : result Z :=
  if int_accepts s then Ok (decimal_value 0 s) else Err ValueError.

(** *** Slices [l[::2]] and [l[1::2]], and [zip] *)

Fixpoint evens {A : Type} (l : list A) : list A :=
  match l with
  | [] => []
  | x :: tl => x :: match tl with [] => [] | _ :: tl' => evens tl' end
  end.

Definition odds {A : Type} (l : list A) : list A :=
  match l with
  | [] => []
  | _ :: tl => evens tl
  end.

(** The elements a slice of [c] iterates over; only sequences slice. *)
Definition slice_elems (c : json) : result (list json) :=
  match c with
  | JList l => Ok l
  | JStr s => Ok (chars s)
  | _ => Err TypeError
  end.

Definition zip {A B : Type} (a : list A) (b : list B) : list (A * B) := combine a b.

End Py.

Import Py.

(** ** The instance *)

(** What a pivot view holds: a value of the raw response or a nested
    mapping built by [_rec_subfield]. *)
Inductive pyval : Type :=
| PJson (j : json)
| PDict (d : list (json * pyval)).

(** The attributes of a [SolrResponse].  [None] is an attribute that was
    never assigned ([hasattr] is false, reading it raises). *)
Record SolrResponse : Type := mkSolrResponse {
  data : json;
  query_time : json;
  header : json;
  grouped : bool;
  docs : json;
  num_found : option json;
  groups : option (sdict json);
  facets : option (sdict (odict json));
  facet_ranges : option (sdict (odict json));
  facet_pivot : option (odict (odict pyval))
}.

(** ** [__init__] *)

Fixpoint foldM {A B : Type} (f : A -> B -> result A) (l : list B) (a : A)
  : result A :=
  match l with
  | [] => Ok a
  | x :: tl => a' <- f a x ;; foldM f tl a'
  end.

Fixpoint mapM {A B : Type} (f : A -> result B) (l : list A) : result (list B) :=
  match l with
  | [] => Ok []
  | x :: tl => y <- f x ;; ys <- mapM f tl ;; Ok (y :: ys)
  end.

(** Lines 30-31, for one [field] of [doc]; the result is [doc] after the
    assignment. *)
Definition normalize_field (doc field : json) : result json :=
  v <- getitem doc field ;;
  match v with
  | JStr s =>
      if isdigit s
      then n <- int_of_str s ;; putitem doc field (JInt n)
      else Ok doc
  | _ => Ok doc
  end.

(** [for field in doc] over a list reads position [i] of the list as it is
    then; the assignment never changes its length. *)
Fixpoint normalize_list (n i : nat) (doc : json) : result json :=
  match n with
  | O => Ok doc
  | S n' =>
      match doc with
      | JList l =>
          match nth_error l i with
          | Some field =>
              doc' <- normalize_field doc field ;; normalize_list n' (S i) doc'
          | None => Ok doc
          end
      | _ => Ok doc
      end
  end.

(** Lines 29-31 for one [doc]. *)
Definition normalize_doc (doc : json) : result json :=
  match doc with
  | JList l => normalize_list (List.length l) 0 doc
  | _ => fields <- iter doc ;; foldM normalize_field fields doc
  end.

(** Lines 28-31.  The elements of a list are rewritten in place; the
    elements that iterating a mapping or a string yields are strings,
    which nothing can rewrite. *)
Definition normalize_docs (ds : json) : result json :=
  match ds with
  | JList l => l' <- mapM normalize_doc l ;; Ok (JList l')
  | _ => elems <- iter ds ;; _ <- mapM normalize_doc elems ;; Ok ds
  end.

(** The object at [path] inside [c] replaced by [v]: how a rewrite of
    [self.docs] shows in [self.data], of which it is a part. *)
Fixpoint put_path (c : json) (path : list json) (v : json) : json :=
  match path with
  | [] => v
  | k :: tl =>
      match getitem c k with
      | Ok sub =>
          match putitem c k (put_path sub tl v) with
          | Ok c' => c'
          | Err _ => c
          end
      | Err _ => c
      end
  end.

(** What lines 12-26 assign.  [x_path] is where the object bound to
    [self.docs] lives inside [data]; [None] when it is a fresh object. *)
Record extracted : Type := mkExtracted {
  x_grouped : bool;
  x_docs : option json;
  x_path : option (list json);
  x_num_found : option json;
  x_groups : option (sdict json)
}.

(** Lines 20-23: the loop over [data['grouped']]. *)
Fixpoint grouped_loop (g : json) (fields : list json) (x : extracted)
  : result extracted :=
  match fields with
  | [] => Ok x
  | field :: tl =>
      let gs := match x_groups x with Some gs => gs | None => [] end in
      e1 <- getitem g field ;;
      ngroups <- getitem e1 (JStr "ngroups") ;;
      k1 <- add_str field "_ngroups" ;;
      let gs1 := dict_set k1 ngroups gs in
      e2 <- getitem g field ;;
      matches <- getitem e2 (JStr "matches") ;;
      k2 <- add_str field "_matches" ;;
      let gs2 := dict_set k2 matches gs1 in
      e3 <- getitem g field ;;
      d <- getitem e3 (JStr "groups") ;;
      grouped_loop g tl
        (mkExtracted true (Some d) (Some [JStr "grouped"; field; JStr "groups"])
                     (x_num_found x) (Some gs2))
  end.

(** Lines 12-26. *)
Definition extract (data : json) : result extracted :=
  has_response <- contains "response" data ;;
  if has_response then
    response <- getitem data (JStr "response") ;;
    d <- getitem response (JStr "docs") ;;
    has_num_found <- contains "numFound" response ;;
    nf <- (if has_num_found
           then n <- getitem response (JStr "numFound") ;; Ok (Some n)
           else Ok None) ;;
    Ok (mkExtracted false (Some d) (Some [JStr "response"; JStr "docs"]) nf None)
  else
    has_grouped <- contains "grouped" data ;;
    if has_grouped then
      g <- getitem data (JStr "grouped") ;;
      fields <- iter g ;;
      grouped_loop g fields (mkExtracted true None None None (Some []))
    else
      Ok (mkExtracted false (Some (JDict [])) None None None).

(** [SolrResponse(data)] *)
Definition init (data : json) : result SolrResponse :=
  h <- getitem data (JStr "responseHeader") ;;
  qtime <- getitem h (JStr "QTime") ;;
  x <- extract data ;;
  match x_docs x with
  | None => Err (AttributeError "docs")
  | Some d =>
      d' <- normalize_docs d ;;
      let data' := match x_path x with
                   | Some path => put_path data path d'
                   | None => data
                   end in
      Ok (mkSolrResponse data' qtime h (x_grouped x) d' (x_num_found x)
                         (x_groups x) None None None)
  end.

(** ** Accessors *)

(** [get_num_found] *)
Definition get_num_found (self : SolrResponse) : result json :=
  match num_found self with
  | Some n => Ok n
  | None => Err (AttributeError "num_found")
  end.

(** *** Facet fields and facet ranges *)

Definition with_facets (self : SolrResponse) (v : sdict (odict json)) : SolrResponse :=
  mkSolrResponse (data self) (query_time self) (header self) (grouped self)
                 (docs self) (num_found self) (groups self)
                 (Some v) (facet_ranges self) (facet_pivot self).

Definition with_facet_ranges (self : SolrResponse) (v : sdict (odict json)) : SolrResponse :=
  mkSolrResponse (data self) (query_time self) (header self) (grouped self)
                 (docs self) (num_found self) (groups self)
                 (facets self) (Some v) (facet_pivot self).

Definition with_facet_pivot (self : SolrResponse) (v : odict (odict pyval)) : SolrResponse :=
  mkSolrResponse (data self) (query_time self) (header self) (grouped self)
                 (docs self) (num_found self) (groups self)
                 (facets self) (facet_ranges self) (Some v).

(** ['k' in c.keys() and type(c['k']) == dict]: the mapping [c['k']] when
    the test holds. *)
Definition mapping_at (c : json) (k : string) : result (option json) :=
  ks <- keys c ;;
  if existsb (String.eqb k) ks then
    v <- getitem c (JStr k) ;;
    Ok (if is_dict v then Some v else None)
  else Ok None.

(** [OrderedDict(zip(l[::2],l[1::2]))] and [dict(zip(l[::2],l[1::2]))] *)
Definition decode_flat (l : json) : result (odict json) :=
  a <- slice_elems l ;;
  b <- slice_elems l ;;
  od_of_pairs [] (zip (evens a) (odds b)).

(** Lines 87-90.  The test of line 88 is [type(... == list)], the type of a
    boolean, which is always true: after the subscript is evaluated the
    body runs for every field.  The loop stops at the first exception and
    leaves what it has stored. *)
Fixpoint facets_loop (ff : json) (fields : list string) (acc : sdict (odict json))
  : sdict (odict json) * option exn :=
  match fields with
  | [] => (acc, None)
  | facetfield :: tl =>
      match (_ <- getitem ff (JStr facetfield) ;;
             l <- getitem ff (JStr facetfield) ;;
             decode_flat l) with
      | Ok od => facets_loop ff tl (dict_set facetfield od acc)
      | Err e => (acc, Some e)
      end
  end.

(** [get_facets] *)
Definition get_facets (self : SolrResponse)
  : SolrResponse * result (sdict (odict json)) :=
  match facets self with
  | Some fs => (self, Ok fs)
  | None =>
      let self := with_facets self [] in
      match mapping_at (data self) "facet_counts" with
      | Err e => (self, Err e)
      | Ok None => (self, Err (SolrResponseError "No Facet Information in the Response"))
      | Ok (Some fc) =>
          match mapping_at fc "facet_fields" with
          | Err e => (self, Err e)
          | Ok None => (self, Ok [])
          | Ok (Some ff) =>
              match keys ff with
              | Err e => (self, Err e)
              | Ok fields =>
                  match facets_loop ff fields [] with
                  | (fs, None) => (with_facets self fs, Ok fs)
                  | (fs, Some e) => (with_facets self fs, Err e)
                  end
              end
          end
      end
  end.

(** Lines 127-130. *)
Fixpoint ranges_loop (fr : json) (fields : list string) (acc : sdict (odict json))
  : sdict (odict json) * option exn :=
  match fields with
  | [] => (acc, None)
  | facetfield :: tl =>
      match (r <- getitem fr (JStr facetfield) ;;
             c <- getitem r (JStr "counts") ;;
             if is_list c then
               r' <- getitem fr (JStr facetfield) ;;
               l <- getitem r' (JStr "counts") ;;
               od <- decode_flat l ;;
               Ok (dict_set facetfield od acc)
             else Ok acc) with
      | Ok acc' => ranges_loop fr tl acc'
      | Err e => (acc, Some e)
      end
  end.

(** [get_facets_ranges].  [Ok None] is a call that ends without a
    [return] statement, whose value is [None]. *)
Definition get_facets_ranges (self : SolrResponse)
  : SolrResponse * result (option (sdict (odict json))) :=
  match facet_ranges self with
  | Some fr => (self, Ok (Some fr))
  | None =>
      let self := with_facet_ranges self [] in
      match mapping_at (data self) "facet_counts" with
      | Err e => (self, Err e)
      | Ok None => (self, Err (SolrResponseError "No Facet Ranges in the Response"))
      | Ok (Some fc) =>
          match mapping_at fc "facet_ranges" with
          | Err e => (self, Err e)
          | Ok None => (self, Ok None)
          | Ok (Some fr) =>
              match keys fr with
              | Err e => (self, Err e)
              | Ok fields =>
                  match ranges_loop fr fields [] with
                  | (rs, None) => (with_facet_ranges self rs, Ok (Some rs))
                  | (rs, Some e) => (with_facet_ranges self rs, Err e)
                  end
              end
          end
      end
  end.

(** [get_facet_values_as_list] *)
Definition get_facet_values_as_list (self : SolrResponse) (field : string)
  : SolrResponse * result (list json) :=
  match get_facets self with
  | (self, Err e) => (self, Err e)
  | (self, Ok fs) =>
      match dict_get field fs with
      | Some od =>
          (self,
           mapM (fun facetfield =>
                   match od_get facetfield od with
                   | Some v => Ok v
                   | None => Err KeyError
                   end) (map fst od))
      | None => (self, Err (SolrResponseError "No field in facet output"))
      end
  end.

(** [facets == -1]: a mapping never equals an integer. *)
Definition facets_eq_int (fs : sdict (odict json)) (n : Z) : bool := false.

(** What [get_facet_keys_as_list] can return: [facets] itself (line 276),
    the key view of [facets[field]] (line 278), or [None] when the body
    ends without a [return]. *)
Inductive keys_result : Type :=
| KFacets (fs : sdict (odict json))
| KKeys (ks : list json)
| KNone.

(** [get_facet_keys_as_list] *)
Definition get_facet_keys_as_list (self : SolrResponse) (field : string)
  : SolrResponse * result keys_result :=
  match get_facets self with
  | (self, Err e) => (self, Err e)
  | (self, Ok fs) =>
      if facets_eq_int fs (-1) then (self, Ok (KFacets fs))
      else
        match dict_get field fs with
        | Some od => (self, Ok (KKeys (map fst od)))
        | None => (self, Ok KNone)
        end
  end.

(** *** Facet pivots *)

Fixpoint json_size (j : json) : nat :=
  match j with
  | JList l => S (list_sum (map json_size l))
  | JDict d => S (list_sum (map (fun kv => json_size (snd kv)) d))
  | _ => 1%nat
  end.

(** Lines 168-172: the loop over a list [sub_field_set], [rec] being the
    recursive call.  [None] is a call that did not come back. *)
Fixpoint rec_sets (rec : json -> option (result (odict pyval)))
  (sub_field_set : json) (sets : list json) (out : odict pyval)
  : option (result (odict pyval)) :=
  match sets with
  | [] => Some (Ok out)
  | set :: tl =>
      match keys set with
      | Err e => Some (Err e)
      | Ok ks =>
          if existsb (String.eqb "pivot") ks then
            match getitem set (JStr "pivot") with
            | Err e => Some (Err e)
            | Ok p =>
                match rec p with
                | None => None
                | Some (Err e) => Some (Err e)
                | Some (Ok sub) =>
                    match (k <- getitem sub_field_set (JStr "value") ;;
                           od_set k (PDict sub) out) with
                    | Err e => Some (Err e)
                    | Ok out' => rec_sets rec sub_field_set tl out'
                    end
                end
            end
          else
            match (c <- getitem set (JStr "count") ;;
                   k <- getitem set (JStr "value") ;;
                   od_set k (PJson c) out) with
            | Err e => Some (Err e)
            | Ok out' => rec_sets rec sub_field_set tl out'
            end
      end
  end.

(** The body of [_rec_subfield] with a bound on the depth of the calls;
    [None] is the bound reached. *)
Fixpoint rec_subfield_fuel (fuel : nat) (sub_field_set : json)
  : option (result (odict pyval)) :=
  match fuel with
  | O => None
  | S fuel' =>
      match sub_field_set with
      | JList l => rec_sets (rec_subfield_fuel fuel') sub_field_set l []
      | JDict _ =>
          match contains "pivot" sub_field_set with
          | Err e => Some (Err e)
          | Ok false => Some (Ok [])
          | Ok true =>
              match getitem sub_field_set (JStr "pivot") with
              | Err e => Some (Err e)
              | Ok p =>
                  match rec_subfield_fuel fuel' p with
                  | None => None
                  | Some (Err e) => Some (Err e)
                  | Some (Ok sub) =>
                      Some (k <- getitem sub_field_set (JStr "value") ;;
                            od_set k (PDict sub) [])
                  end
              end
          end
      | _ => Some (Ok [])
      end
  end.

(** [_rec_subfield]: the calls nest no deeper than the value. *)
Definition _rec_subfield (sub_field_set : json) : result (odict pyval) :=
  match rec_subfield_fuel (json_size sub_field_set) sub_field_set with
  | Some r => r
  | None => Ok []
  end.

(** Lines 158-160: [self.facet_pivot[fieldset].update(res)] for every entry
    of [pivots[fieldset]]. *)
Fixpoint pivot_entries (fieldset : json) (entries : list json)
  (acc : odict (odict pyval)) : odict (odict pyval) * option exn :=
  match entries with
  | [] => (acc, None)
  | sub_field_set :: tl =>
      match (res <- _rec_subfield sub_field_set ;;
             match od_get fieldset acc with
             | Some cur => Ok (od_put fieldset (od_update cur res) acc)
             | None => Err KeyError
             end) with
      | Ok acc' => pivot_entries fieldset tl acc'
      | Err e => (acc, Some e)
      end
  end.

(** Lines 156-160. *)
Fixpoint pivot_loop (pivots : json) (fieldsets : list json)
  (acc : odict (odict pyval)) : odict (odict pyval) * option exn :=
  match fieldsets with
  | [] => (acc, None)
  | fieldset :: tl =>
      match od_set fieldset [] acc with
      | Err e => (acc, Some e)
      | Ok acc1 =>
          match (es <- getitem pivots fieldset ;; iter es) with
          | Err e => (acc1, Some e)
          | Ok entries =>
              match pivot_entries fieldset entries acc1 with
              | (acc2, None) => pivot_loop pivots tl acc2
              | (acc2, Some e) => (acc2, Some e)
              end
          end
      end
  end.

(** [get_facet_pivot].  [Ok None] is a call that ends without a [return]
    statement. *)
Definition get_facet_pivot (self : SolrResponse)
  : SolrResponse * result (option (odict (odict pyval))) :=
  match facet_pivot self with
  | Some fp => (self, Ok (Some fp))
  | None =>
      let self := with_facet_pivot self [] in
      match keys (data self) with
      | Err e => (self, Err e)
      | Ok ks =>
          if existsb (String.eqb "facet_counts") ks then
            match (fc <- getitem (data self) (JStr "facet_counts") ;;
                   pivots <- getitem fc (JStr "facet_pivot") ;;
                   fieldsets <- iter pivots ;;
                   Ok (pivots, fieldsets)) with
            | Err e => (self, Err e)
            | Ok (pivots, fieldsets) =>
                match pivot_loop pivots fieldsets [] with
                | (fp, None) => (with_facet_pivot self fp, Ok (Some fp))
                | (fp, Some e) => (with_facet_pivot self fp, Err e)
                end
            end
          else (self, Ok None)
      end
  end.

(** *** [get_json]: [json.dumps] with its default arguments *)

Definition dq : string := String "034"%char EmptyString.
Definition bs : string := String "092"%char EmptyString.

Definition hex_digit (n : nat) : string :=
  String (nth n ["0"; "1"; "2"; "3"; "4"; "5"; "6"; "7"; "8"; "9";
                 "a"; "b"; "c"; "d"; "e"; "f"]%char "0"%char) EmptyString.

(** One character of a string literal, [ensure_ascii] being on: the short
    escapes, [\u00xx] outside the printable ASCII range. *)
Definition escape_char (c : ascii) : string :=
  let n := nat_of_ascii c in
  (if (n =? 34)%nat then bs ++ dq
   else if (n =? 92)%nat then bs ++ bs
   else if (n =? 10)%nat then bs ++ "n"
   else if (n =? 13)%nat then bs ++ "r"
   else if (n =? 9)%nat then bs ++ "t"
   else if (n =? 8)%nat then bs ++ "b"
   else if (n =? 12)%nat then bs ++ "f"
   else if (32 <=? n)%nat && (n <=? 126)%nat then String c EmptyString
   else bs ++ "u00" ++ hex_digit (n / 16) ++ hex_digit (n mod 16))%string.

Definition encode_str (s : string) : string :=
  (dq ++ String.concat "" (map escape_char (list_ascii_of_string s)) ++ dq)%string.

Definition encode_int (n : Z) : string := NilZero.string_of_int (Z.to_int n).

Fixpoint json_dumps (j : json) : string :=
  match j with
  | JNull => "null"
  | JBool true => "true"
  | JBool false => "false"
  | JInt n => encode_int n
  | JStr s => encode_str s
  | JList l => ("[" ++ String.concat ", " (map json_dumps l) ++ "]")%string
  | JDict d =>
      ("{" ++ String.concat ", "
                (map (fun kv => encode_str (fst kv) ++ ": " ++ json_dumps (snd kv)) d)
           ++ "}")%string
  end.

(** [get_json] *)
Definition get_json (self : SolrResponse) : string := json_dumps (data self).

(** *** Documents and cursor *)

(** [get_results_count] *)
Definition get_results_count (self : SolrResponse) : result Z := len (docs self).

(** [get_cursor] *)
Definition get_cursor (self : SolrResponse) : result json :=
  has_mark <- contains "nextCursorMark" (data self) ;;
  if has_mark then getitem (data self) (JStr "nextCursorMark")
  else Err (SolrResponseError "No Cursor Mark in the Response").

(** The comprehension of line 187: the test [field in doc], then the
    element [doc[field]], document after document. *)
Fixpoint field_values_loop (field : string) (ds : list json) : result (list json) :=
  match ds with
  | [] => Ok []
  | doc :: tl =>
      has_field <- contains field doc ;;
      if has_field then
        v <- getitem doc (JStr field) ;;
        vs <- field_values_loop field tl ;;
        Ok (v :: vs)
      else field_values_loop field tl
  end.

(** [get_field_values_as_list] *)
Definition get_field_values_as_list (self : SolrResponse) (field : string)
  : result (list json) :=
  ds <- iter (docs self) ;;
  field_values_loop field ds.

(** Lines 232-235. *)
Fixpoint first_field_loop (field : string) (ds : list json) : result json :=
  match ds with
  | [] => Err (SolrResponseError "No field in result set")
  | doc :: tl =>
      ks <- keys doc ;;
      if existsb (String.eqb field) ks then getitem doc (JStr field)
      else first_field_loop field tl
  end.

(** [get_first_field_values_as_list] *)
Definition get_first_field_values_as_list (self : SolrResponse) (field : string)
  : result json :=
  ds <- iter (docs self) ;;
  first_field_loop field ds.

(** ** Notions used in the statements *)

(** A non-empty string of the decimal digits 0 to 9. *)
Definition is_decimal_string (s : string) : bool :=
  match s with
  | EmptyString => false
  | _ => all_chars is_decimal_char s
  end.

(** What lines 30-31 store for a field holding [v]. *)
Definition coerce (v : json) : json :=
  match v with
  | JStr s => if isdigit s then JInt (decimal_value 0 s) else v
  | _ => v
  end.

(** Whether [int] accepts what line 31 hands it. *)
Definition coerce_ok (v : json) : bool :=
  match v with
  | JStr s => if isdigit s then int_accepts s else true
  | _ => true
  end.

(** A field after lines 30-31. *)
Definition coerce_entry (kv : string * json) : string * json :=
  (fst kv, coerce (snd kv)).

(** The reading of a flat list the decoder is meant to implement: pair [i]
    is the element at the even index [2i] with the element after it. *)
Definition pair_at (l : list json) (i : nat) : option (json * json) :=
  match nth_error l (2 * i)%nat, nth_error l (2 * i + 1)%nat with
  | Some k, Some v => Some (k, v)
  | _, _ => None
  end.

(** The value of the last pair stored under a key equal to [k]. *)
Definition last_seen {V : Type} (k : json) (ps : list (json * V)) : option V :=
  fold_left (fun r kv => if key_eqb k (fst kv) then Some (snd kv) else r) ps None.

(** The keys in the order in which each is first met. *)
Definition first_seen (ks : list json) : list json :=
  fold_left (fun seen k => if existsb (key_eqb k) seen then seen else seen ++ [k]) ks [].

(** Every stored view is the decoding of the field it is stored under. *)
Definition facets_good (ff : json) (acc : sdict (odict json)) : Prop :=
  forall f od,
    dict_get f acc = Some od ->
    exists l, getitem ff (JStr f) = Ok l /\ decode_flat l = Ok od.

(** A quoted name in JSON text. *)
Definition q (s : string) : string := (dq ++ s ++ dq)%string.

(** A document that is a mapping, its keys distinct as in every Python
    mapping. *)
Definition mapping_doc (doc : json) : Prop :=
  exists d, doc = JDict d /\ NoDup (dict_keys d).

(** Whether [int] accepts every field of the document that line 30
    selects. *)
Definition doc_ok (doc : json) : bool :=
  match doc with
  | JDict d => forallb coerce_ok (map snd d)
  | _ => true
  end.

(** A mapping document after lines 29-31. *)
Definition coerce_doc (doc : json) : json :=
  match doc with
  | JDict d => JDict (map coerce_entry d)
  | _ => doc
  end.

(** The values of [field] in the documents that hold it, in order. *)
Definition field_values (field : string) (l : list json) : list json :=
  flat_map (fun doc =>
              match doc with
              | JDict d => match dict_get field d with Some v => [v] | None => [] end
              | _ => []
              end) l.

(** A string that [str.isdigit] accepts. *)
Definition is_digit_str (v : json) : bool :=
  match v with
  | JStr s => isdigit s
  | _ => false
  end.

(** A hashed mapping as Python keeps it: every key hashable, no two keys
    equal. *)
Fixpoint od_wf {V : Type} (d : odict V) : Prop :=
  match d with
  | [] => True
  | (k, _) :: tl => hashable k = true /\ od_get k tl = None /\ od_wf tl
  end.

(** A leaf entry of a pivot list and the pair it contributes. *)
Definition leaf_entry (set : json) (p : json * pyval) : Prop :=
  exists d c,
    set = JDict d /\
    dict_mem "pivot" d = false /\
    dict_get "count" d = Some c /\
    dict_get "value" d = Some (fst p) /\
    snd p = PJson c.

(** Every stored range view is the decoding of the [counts] list of the
    field it is stored under. *)
Definition ranges_good (fr : json) (acc : sdict (odict json)) : Prop :=
  forall f od,
    dict_get f acc = Some od ->
    exists r l,
      getitem fr (JStr f) = Ok r /\
      getitem r (JStr "counts") = Ok (JList l) /\
      decode_flat (JList l) = Ok od.

(** [n] zeros, as leading zeros of a decimal string. *)
Fixpoint zeros (n : nat) : string :=
  match n with
  | O => EmptyString
  | S n' => String "0" (zeros n')
  end.

(** ** Example responses *)

(** An ungrouped response with one document. *)
Definition ungrouped_example : json :=
  JDict [("responseHeader", JDict [("status", JInt 0); ("QTime", JInt 3)]);
         ("response",
          JDict [("numFound", JInt 50); ("start", JInt 0);
                 ("docs",
                  JList [JDict [("price", JStr "100"); ("name", JStr "abc");
                                ("code", JStr "007")]])])].

(** A response with neither [response] nor [grouped]. *)
Definition empty_example : json :=
  JDict [("responseHeader", JDict [("status", JInt 0); ("QTime", JInt 1)])].

(** A grouped response without fields. *)
Definition grouped_empty_example : json :=
  JDict [("responseHeader", JDict [("status", JInt 0); ("QTime", JInt 2)]);
         ("grouped", JDict [])].

(** A response grouped by two fields. *)
Definition grouped_example : json :=
  JDict [("responseHeader", JDict [("status", JInt 0); ("QTime", JInt 5)]);
         ("grouped",
          JDict [("brand",
                  JDict [("matches", JInt 9); ("ngroups", JInt 2);
                         ("groups",
                          JList [JDict [("groupValue", JStr "acme")];
                                 JDict [("groupValue", JStr "12")]])]);
                 ("shop",
                  JDict [("matches", JInt 9); ("ngroups", JInt 1);
                         ("groups", JList [JDict [("groupValue", JStr "44")]])])])].

(** A response with one facet field. *)
Definition facets_example : json :=
  JDict [("responseHeader", JDict [("status", JInt 0); ("QTime", JInt 4)]);
         ("response", JDict [("numFound", JInt 0); ("start", JInt 0); ("docs", JList [])]);
         ("facet_counts",
          JDict [("facet_queries", JDict []);
                 ("facet_fields",
                  JDict [("color",
                          JList [JStr "red"; JInt 3; JStr "blue"; JInt 5;
                                 JStr "red"; JInt 1])])])].

(** Facet counts without facet fields, ranges or pivots. *)
Definition facet_counts_only_example : json :=
  JDict [("responseHeader", JDict [("status", JInt 0); ("QTime", JInt 1)]);
         ("response", JDict [("numFound", JInt 0); ("start", JInt 0); ("docs", JList [])]);
         ("facet_counts", JDict [("facet_queries", JDict [])])].

(** Facet ranges that are a list, not a mapping. *)
Definition ranges_not_mapping_example : json :=
  JDict [("responseHeader", JDict [("status", JInt 0); ("QTime", JInt 1)]);
         ("response", JDict [("numFound", JInt 0); ("start", JInt 0); ("docs", JList [])]);
         ("facet_counts", JDict [("facet_ranges", JList [])])].

(** The entries of a two-level pivot: the second has no sub-list. *)
Definition pivot_entries_example : json :=
  JList [JDict [("value", JStr "A"); ("count", JInt 2);
                ("pivot",
                 JList [JDict [("value", JStr "X"); ("count", JInt 1)];
                        JDict [("value", JStr "Y"); ("count", JInt 1)]])];
         JDict [("value", JStr "B"); ("count", JInt 1)]].

(** A response with that pivot. *)
Definition pivot_example : json :=
  JDict [("responseHeader", JDict [("status", JInt 0); ("QTime", JInt 2)]);
         ("response", JDict [("numFound", JInt 3); ("start", JInt 0); ("docs", JList [])]);
         ("facet_counts",
          JDict [("facet_pivot", JDict [("cat,sub", pivot_entries_example)])])].

(** A response with a three-level pivot. *)
Definition pivot3_example : json :=
  JDict [("responseHeader", JDict [("status", JInt 0); ("QTime", JInt 2)]);
         ("response", JDict [("numFound", JInt 1); ("start", JInt 0); ("docs", JList [])]);
         ("facet_counts",
          JDict [("facet_pivot",
                  JDict [("cat,sub,size",
                          JList [JDict [("value", JStr "A"); ("count", JInt 1);
                                        ("pivot",
                                         JList [JDict [("value", JStr "X"); ("count", JInt 1);
                                                       ("pivot",
                                                        JList [JDict [("value", JInt 7);
                                                                      ("count", JInt 1)]])]])]])])])].

(** A response with a cursor mark and two documents. *)
Definition cursor_example : json :=
  JDict [("responseHeader", JDict [("status", JInt 0); ("QTime", JInt 6)]);
         ("response",
          JDict [("numFound", JInt 2); ("start", JInt 0);
                 ("docs",
                  JList [JDict [("id", JStr "a1"); ("price", JStr "15")];
                         JDict [("id", JStr "b2")]])]);
         ("nextCursorMark", JStr "AoE")].

(** A response with a range facet whose second field has no list of
    counts. *)
Definition ranges_example : json :=
  JDict [("responseHeader", JDict [("status", JInt 0); ("QTime", JInt 6)]);
         ("response", JDict [("numFound", JInt 0); ("start", JInt 0); ("docs", JList [])]);
         ("facet_counts",
          JDict [("facet_ranges",
                  JDict [("price",
                          JDict [("counts",
                                  JList [JStr "0"; JInt 3; JStr "10"; JInt 5;
                                         JStr "20"; JInt 7]);
                                 ("gap", JInt 10)]);
                         ("weight", JDict [("counts", JNull)])])])].

(** A document whose field holds the superscript two, a digit for
    [str.isdigit] that [int] rejects. *)
Definition superscript_doc : json :=
  JDict [("n", JStr (String (ascii_of_nat 178) EmptyString))].

(** A response with a pivot over a single field. *)
Definition pivot_single_example : json :=
  JDict [("responseHeader", JDict [("status", JInt 0); ("QTime", JInt 2)]);
         ("response", JDict [("numFound", JInt 3); ("start", JInt 0); ("docs", JList [])]);
         ("facet_counts",
          JDict [("facet_pivot",
                  JDict [("cat",
                          JList [JDict [("field", JStr "cat"); ("value", JStr "A");
                                        ("count", JInt 2)];
                                 JDict [("field", JStr "cat"); ("value", JStr "B");
                                        ("count", JInt 1)]])])])].

(** A document whose field holds 4301 zeros, one digit more than [int]
    converts. *)
Definition long_digits_doc : json := JDict [("n", JStr (zeros 4301))].

(** * Properties *)

(** ** Inversion of the monadic steps *)

Lemma bind_ok {A B : Type} (r : result A) (k : A -> result B) (b : B) :
  bind r k = Ok b -> exists a, r = Ok a /\ k a = Ok b.
Proof.
  destruct r as [a|e]; simpl; intro H; [exists a; split; [reflexivity|exact H] | discriminate].
Qed.

Ltac bind_inv H :=
  let a := fresh "a" in
  let E := fresh "E" in
  apply bind_ok in H; destruct H as (a & E & H).

Lemma getitem_str_dict (c : json) (k : string) (v : json) :
  getitem c (JStr k) = Ok v -> exists d, c = JDict d /\ dict_get k d = Some v.
Proof.
  destruct c as [| | | s | l | d]; simpl; try discriminate.
  intro H. exists d. split; [reflexivity|].
  destruct (dict_get k d); [injection H as ->; reflexivity | discriminate].
Qed.

Lemma dict_get_mem {V : Type} (k : string) (d : sdict V) (v : V) :
  dict_get k d = Some v -> dict_mem k d = true.
Proof. unfold dict_mem. intros ->. reflexivity. Qed.

(** What a successful construction went through. *)
Lemma init_inv (data : json) (self : SolrResponse) :
  init data = Ok self ->
  exists h qtime x d d',
    getitem data (JStr "responseHeader") = Ok h /\
    getitem h (JStr "QTime") = Ok qtime /\
    extract data = Ok x /\
    x_docs x = Some d /\
    normalize_docs d = Ok d' /\
    self = mkSolrResponse
             (match x_path x with Some path => put_path data path d' | None => data end)
             qtime h (x_grouped x) d' (x_num_found x) (x_groups x) None None None.
Proof.
  unfold init. intro H.
  bind_inv H. bind_inv H. bind_inv H.
  destruct (x_docs a1) as [d|] eqn:Ed; [|discriminate].
  bind_inv H. injection H as <-.
  exists a, a0, a1, d, a2. repeat split; assumption.
Qed.

Lemma grouped_loop_num_found (g : json) (fields : list json) (x x' : extracted) :
  grouped_loop g fields x = Ok x' -> x_num_found x' = x_num_found x.
Proof.
  revert x. induction fields as [|f tl IH]; simpl; intros x H.
  - injection H as <-. reflexivity.
  - repeat bind_inv H. apply IH in H. exact H.
Qed.

(** ** The total-match count *)

(** C2: on an instance built from a response whose [response] mapping
    carries [numFound = M], [get_num_found] returns [M]; on an instance
    built from a response without the [response] key (grouped or empty)
    the attribute [num_found] was never assigned and [get_num_found]
    raises on reading it, returning neither zero nor any default. *)
Theorem get_num_found_spec :
  (forall data self response M,
      init data = Ok self ->
      getitem data (JStr "response") = Ok response ->
      getitem response (JStr "numFound") = Ok M ->
      get_num_found self = Ok M) /\
  (forall data self,
      init data = Ok self ->
      contains "response" data = Ok false ->
      get_num_found self = Err (AttributeError "num_found")).
Proof.
  split.
  - intros data self response M Hinit Hr Hn.
    apply init_inv in Hinit.
    destruct Hinit as (h & qt & x & d & d' & _ & _ & Hx & _ & _ & ->).
    unfold get_num_found; simpl.
    apply getitem_str_dict in Hr. destruct Hr as (dd & -> & Hr).
    unfold extract in Hx. simpl in Hx.
    rewrite (dict_get_mem _ _ _ Hr) in Hx. simpl in Hx. rewrite Hr in Hx. simpl in Hx.
    bind_inv Hx.
    apply getitem_str_dict in Hn. destruct Hn as (rd & -> & Hn).
    simpl in Hx. rewrite (dict_get_mem _ _ _ Hn) in Hx. simpl in Hx.
    rewrite Hn in Hx. simpl in Hx. injection Hx as <-. reflexivity.
  - intros data self Hinit Hc.
    apply init_inv in Hinit.
    destruct Hinit as (h & qt & x & d & d' & _ & _ & Hx & _ & _ & ->).
    unfold get_num_found; simpl.
    unfold extract in Hx. rewrite Hc in Hx. simpl in Hx.
    bind_inv Hx. destruct a.
    + repeat bind_inv Hx. apply grouped_loop_num_found in Hx. rewrite Hx. reflexivity.
    + injection Hx as <-. reflexivity.
Qed.

Lemma get_num_found_spec_witness :
  (exists self, init ungrouped_example = Ok self /\ get_num_found self = Ok (JInt 50)) /\
  (exists self, init empty_example = Ok self /\
                get_num_found self = Err (AttributeError "num_found")).
Proof.
  split.
  - destruct (init ungrouped_example) as [self|e] eqn:E; [|discriminate E].
    exists self. split; [reflexivity|].
    apply (proj1 get_num_found_spec ungrouped_example self
             (JDict [("numFound", JInt 50); ("start", JInt 0);
                     ("docs",
                      JList [JDict [("price", JStr "100"); ("name", JStr "abc");
                                    ("code", JStr "007")]])]) (JInt 50));
      [exact E | reflexivity | reflexivity].
  - destruct (init empty_example) as [self|e] eqn:E; [|discriminate E].
    exists self. split; [reflexivity|].
    apply (proj2 get_num_found_spec empty_example self); [exact E | reflexivity].
Defined.

(** ** A [grouped] mapping without fields *)

(** C10: when the input has no [response] key and its [grouped] value is
    the empty mapping, the loop of lines 20-23 never runs, [self.docs] is
    never assigned, and the constructor raises when line 28 reads it: no
    instance is produced. *)
Theorem init_grouped_empty_raises (data : json) :
  contains "response" data = Ok false ->
  getitem data (JStr "grouped") = Ok (JDict []) ->
  is_ok (init data) = false /\
  (forall h qtime,
      getitem data (JStr "responseHeader") = Ok h ->
      getitem h (JStr "QTime") = Ok qtime ->
      init data = Err (AttributeError "docs")).
Proof.
  intros Hc Hg.
  assert (Hx : extract data = Ok (mkExtracted true None None None (Some []))).
  { unfold extract. rewrite Hc. simpl.
    destruct (getitem_str_dict _ _ _ Hg) as (d & -> & Hd).
    simpl. rewrite (dict_get_mem _ _ _ Hd). simpl. rewrite Hd. reflexivity. }
  split.
  - unfold init.
    destruct (getitem data (JStr "responseHeader")) as [h|]; simpl; [|reflexivity].
    destruct (getitem h (JStr "QTime")); simpl; [|reflexivity].
    rewrite Hx. reflexivity.
  - intros h qtime Hh Hq. unfold init. rewrite Hh. simpl. rewrite Hq. simpl.
    rewrite Hx. reflexivity.
Qed.

Lemma init_grouped_empty_raises_witness :
  init grouped_empty_example = Err (AttributeError "docs").
Proof.
  apply (proj2 (init_grouped_empty_raises grouped_empty_example eq_refl eq_refl)
               (JDict [("status", JInt 0); ("QTime", JInt 2)]) (JInt 2));
    reflexivity.
Defined.

(** ** Normalisation of the documents *)

Lemma dict_get_app {V : Type} (k : string) (pre post : sdict V) :
  ~ In k (dict_keys pre) -> dict_get k (pre ++ post) = dict_get k post.
Proof.
  induction pre as [|[k' v'] pre IH]; simpl; intro H; [reflexivity|].
  destruct (String.eqb_spec k k') as [->|Hne].
  - exfalso. apply H. left. reflexivity.
  - apply IH. intro Hin. apply H. right. exact Hin.
Qed.

Lemma dict_set_app {V : Type} (k : string) (v : V) (pre post : sdict V) :
  ~ In k (dict_keys pre) -> dict_set k v (pre ++ post) = pre ++ dict_set k v post.
Proof.
  induction pre as [|[k' v'] pre IH]; simpl; intro H; [reflexivity|].
  destruct (String.eqb_spec k k') as [->|Hne].
  - exfalso. apply H. left. reflexivity.
  - f_equal. apply IH. intro Hin. apply H. right. exact Hin.
Qed.

Lemma normalize_field_dict (pre post : sdict json) (k : string) (v : json) :
  ~ In k (dict_keys pre) ->
  normalize_field (JDict (pre ++ (k, v) :: post)) (JStr k) =
  if coerce_ok v then Ok (JDict (pre ++ (k, coerce v) :: post)) else Err ValueError.
Proof.
  intro Hk. unfold normalize_field. simpl.
  rewrite (dict_get_app k pre _ Hk). simpl. rewrite String.eqb_refl. simpl.
  destruct v as [| b | n | s | l | d]; simpl; try reflexivity.
  destruct (isdigit s) eqn:Ed; [|reflexivity].
  unfold int_of_str.
  destruct (int_accepts s); simpl; [|reflexivity].
  rewrite (dict_set_app k _ pre _ Hk). simpl. rewrite String.eqb_refl. reflexivity.
Qed.

Lemma normalize_fields_dict (post pre : sdict json) :
  NoDup (dict_keys post) ->
  (forall k, In k (dict_keys post) -> ~ In k (dict_keys pre)) ->
  foldM normalize_field (map JStr (dict_keys post)) (JDict (pre ++ post)) =
  if forallb coerce_ok (map snd post)
  then Ok (JDict (pre ++ map coerce_entry post))
  else Err ValueError.
Proof.
  revert pre. induction post as [|[k v] post IH]; intros pre Hnd Hdis.
  - reflexivity.
  - simpl. rewrite normalize_field_dict by (apply Hdis; left; reflexivity).
    destruct (coerce_ok v); simpl; [|reflexivity].
    change (pre ++ (k, coerce v) :: post) with (pre ++ [(k, coerce v)] ++ post).
    rewrite app_assoc. inversion Hnd as [|? ? Hnotin Hnd']; subst.
    rewrite IH.
    + rewrite <- app_assoc. reflexivity.
    + exact Hnd'.
    + intros k' Hin Hin'. unfold dict_keys in Hin'. rewrite map_app in Hin'.
      apply in_app_or in Hin'. destruct Hin' as [Hin'|[<-|[]]].
      * apply (Hdis k'); [right; exact Hin | exact Hin'].
      * apply Hnotin. exact Hin.
Qed.

(** A mapping with distinct keys is rewritten field by field. *)
Lemma normalize_doc_dict (d : sdict json) (r : json) :
  NoDup (dict_keys d) ->
  normalize_doc (JDict d) = Ok r ->
  r = JDict (map coerce_entry d) /\ forallb coerce_ok (map snd d) = true.
Proof.
  intros Hnd H. unfold normalize_doc in H. simpl in H.
  pose proof (normalize_fields_dict d [] Hnd (fun _ _ F => F)) as E.
  simpl in E. rewrite E in H.
  destruct (forallb coerce_ok (map snd d)); [|discriminate].
  injection H as <-. split; reflexivity.
Qed.

Lemma mapM_nth {A B : Type} (f : A -> result B) (l : list A) (l' : list B) :
  mapM f l = Ok l' ->
  List.length l' = List.length l /\
  forall i x, nth_error l i = Some x ->
              exists y, nth_error l' i = Some y /\ f x = Ok y.
Proof.
  revert l'. induction l as [|a l IH]; simpl; intros l' H.
  - injection H as <-. split; [reflexivity|]. intros [|i] x Hx; discriminate.
  - bind_inv H. bind_inv H. injection H as <-.
    destruct (IH _ E0) as [Hlen Hnth]. split; [simpl; f_equal; exact Hlen|].
    intros [|i] x Hx; simpl in *.
    + injection Hx as <-. exists a0. split; [reflexivity | exact E].
    + apply Hnth. exact Hx.
Qed.

Lemma dict_get_coerce (k : string) (d : sdict json) :
  dict_get k (map coerce_entry d) = option_map coerce (dict_get k d).
Proof.
  induction d as [|[k' v'] d IH]; simpl; [reflexivity|].
  destruct (String.eqb k k'); [reflexivity | exact IH].
Qed.

Lemma dict_get_In {V : Type} (k : string) (d : sdict V) (v : V) :
  dict_get k d = Some v -> In v (map snd d).
Proof.
  induction d as [|[k' v'] d IH]; simpl; [discriminate|].
  destruct (String.eqb k k').
  - intro H. injection H as ->. left. reflexivity.
  - intro H. right. apply IH. exact H.
Qed.

Lemma all_decimal_digit (s : string) :
  all_chars is_decimal_char s = true -> all_chars is_digit_char s = true.
Proof.
  induction s as [|c s IH]; simpl; [reflexivity|].
  intro H. apply andb_prop in H. destruct H as [Hc Hs].
  rewrite (IH Hs). unfold is_digit_char. rewrite Hc. reflexivity.
Qed.

(** When [int] accepts the field, the stored value is the integer for a
    decimal string and the untouched value otherwise. *)
Lemma coerce_decimal (v : json) :
  coerce_ok v = true ->
  coerce v = match v with
             | JStr s => if is_decimal_string s then JInt (decimal_value 0 s) else v
             | _ => v
             end.
Proof.
  destruct v as [| b | n | s | l | d]; simpl; try reflexivity.
  destruct s as [|c s]; [reflexivity|].
  unfold isdigit, is_decimal_string, int_accepts.
  destruct (all_chars is_digit_char (String c s)) eqn:Ed.
  - intro H. apply andb_prop in H. destruct H as [-> _]. reflexivity.
  - intros _. destruct (all_chars is_decimal_char (String c s)) eqn:Ec; [|reflexivity].
    apply all_decimal_digit in Ec. congruence.
Qed.

(** X19: after a successful construction whose working collection is a
    list, the collection has the same length and every document that is a
    mapping keeps its fields in order, a field holding a non-empty string
    of decimal digits now holds the integer it denotes (leading zeros
    lost), and every other field (another string, a number, anything
    else) holds what it held; the document of the example becomes
    [price = 100], [name = "abc"], [code = 7]. *)
Theorem init_normalizes_documents :
  (forall data self x l,
      init data = Ok self ->
      extract data = Ok x ->
      x_docs x = Some (JList l) ->
      exists l',
        docs self = JList l' /\
        List.length l' = List.length l /\
        forall i d,
          nth_error l i = Some (JDict d) ->
          NoDup (dict_keys d) ->
          exists d',
            nth_error l' i = Some (JDict d') /\
            dict_keys d' = dict_keys d /\
            forall field v,
              dict_get field d = Some v ->
              dict_get field d' =
              Some (match v with
                    | JStr s =>
                        if is_decimal_string s then JInt (decimal_value 0 s) else v
                    | _ => v
                    end)) /\
  (exists self,
      init ungrouped_example = Ok self /\
      docs self =
      JList [JDict [("price", JInt 100); ("name", JStr "abc"); ("code", JInt 7)]]).
Proof.
  split.
  - intros data self x l Hinit Hx Hd.
    apply init_inv in Hinit.
    destruct Hinit as (h & qt & x0 & d0 & d' & _ & _ & Hx0 & Hd0 & Hn & ->).
    rewrite Hx in Hx0. injection Hx0 as <-. rewrite Hd in Hd0. injection Hd0 as <-.
    simpl in Hn. bind_inv Hn. injection Hn as <-.
    destruct (mapM_nth _ _ _ E) as [Hlen Hnth].
    exists a. simpl. split; [reflexivity|]. split; [exact Hlen|].
    intros i d Hi Hnd.
    destruct (Hnth i _ Hi) as (y & Hy & Hf).
    destruct (normalize_doc_dict d y Hnd Hf) as [-> Hall].
    exists (map coerce_entry d). split; [exact Hy|]. split.
    + unfold dict_keys. rewrite map_map. reflexivity.
    + intros field v Hv. rewrite dict_get_coerce, Hv. simpl. f_equal.
      apply coerce_decimal.
      rewrite forallb_forall in Hall. apply Hall.
      apply (dict_get_In field). exact Hv.
  - eexists. split; reflexivity.
Qed.

Lemma init_normalizes_documents_witness :
  exists self l',
    init ungrouped_example = Ok self /\
    docs self = JList l' /\
    exists d',
      nth_error l' 0 = Some (JDict d') /\
      dict_get "code" d' = Some (JInt 7).
Proof.
  destruct (init ungrouped_example) as [self|e] eqn:E; [|discriminate E].
  destruct (extract ungrouped_example) as [x|e] eqn:Ex; [|discriminate Ex].
  destruct (proj1 init_normalizes_documents ungrouped_example self x
              [JDict [("price", JStr "100"); ("name", JStr "abc"); ("code", JStr "007")]]
              E Ex) as (l' & Hdocs & _ & Hdoc).
  { injection Ex as <-. reflexivity. }
  exists self, l'. split; [reflexivity|]. split; [exact Hdocs|].
  destruct (Hdoc 0%nat
              [("price", JStr "100"); ("name", JStr "abc"); ("code", JStr "007")]
              eq_refl) as (d' & Hd' & _ & Hf).
  { repeat constructor; simpl; intuition discriminate. }
  exists d'. split; [exact Hd'|].
  exact (Hf "code" (JStr "007") eq_refl).
Defined.

(** C6, what the code does where the claim fails: a field holding a string
    that [str.isdigit] accepts and [int] rejects is neither converted nor
    left unchanged, line 31 raises [ValueError] and no instance is built.
    That is so for the superscript two, which is no decimal digit, and for
    a string of 4301 decimal digits, which the claim says becomes an
    integer.  The document of the claim's example is converted as the
    claim says. *)
Theorem init_digit_string_raises :
  init (JDict [("responseHeader", JDict [("QTime", JInt 1)]);
               ("response", JDict [("docs", JList [superscript_doc])])])
  = Err ValueError /\
  init (JDict [("responseHeader", JDict [("QTime", JInt 1)]);
               ("response", JDict [("docs", JList [long_digits_doc])])])
  = Err ValueError /\
  (exists self,
      init ungrouped_example = Ok self /\
      docs self =
      JList [JDict [("price", JInt 100); ("name", JStr "abc"); ("code", JInt 7)]]).
Proof.
  split; [|split].
  - reflexivity.
  - vm_compute. reflexivity.
  - eexists. split; reflexivity.
Qed.

(** ** Grouped responses *)

Lemma length_append (a b : string) :
  String.length (a ++ b) = (String.length a + String.length b)%nat.
Proof. induction a as [|c a IH]; simpl; [reflexivity | rewrite IH; reflexivity]. Qed.

(** Two strings with suffixes of one length are equal only piecewise. *)
Lemma append_suffix_inj (a b s t : string) :
  String.length s = String.length t ->
  (a ++ s)%string = (b ++ t)%string -> a = b /\ s = t.
Proof.
  intro Hlen. revert b. induction a as [|c a IH]; intros [|c' b] H; simpl in H.
  - split; [reflexivity | exact H].
  - exfalso. apply (f_equal String.length) in H. simpl in H.
    rewrite length_append in H. lia.
  - exfalso. apply (f_equal String.length) in H. simpl in H.
    rewrite length_append in H. lia.
  - injection H as -> H. destruct (IH _ H) as [-> ->]. split; reflexivity.
Qed.

Lemma dict_get_set {V : Type} (k k' : string) (v : V) (d : sdict V) :
  dict_get k (dict_set k' v d) = if String.eqb k k' then Some v else dict_get k d.
Proof.
  induction d as [|[k0 v0] d IH]; simpl.
  - reflexivity.
  - destruct (String.eqb_spec k' k0) as [->|Hne]; simpl.
    + destruct (String.eqb k k0); reflexivity.
    + rewrite IH. destruct (String.eqb_spec k k') as [->|Hne'].
      * destruct (String.eqb_spec k' k0); [contradiction | reflexivity].
      * reflexivity.
Qed.

(** The metadata the loop of lines 20-23 leaves, and what it does not
    touch. *)
Lemma grouped_loop_groups (g : json) (fs : list string) :
  forall x x' gs0,
    grouped_loop g (map JStr fs) x = Ok x' ->
    x_groups x = Some gs0 ->
    exists gs,
      x_groups x' = Some gs /\
      (forall f, In f fs ->
         exists e n m,
           getitem g (JStr f) = Ok e /\
           getitem e (JStr "ngroups") = Ok n /\
           getitem e (JStr "matches") = Ok m /\
           dict_get (f ++ "_ngroups") gs = Some n /\
           dict_get (f ++ "_matches") gs = Some m) /\
      (forall k,
         (forall f, In f fs -> k <> (f ++ "_ngroups")%string /\ k <> (f ++ "_matches")%string) ->
         dict_get k gs = dict_get k gs0).
Proof.
  induction fs as [|f tl IH]; simpl; intros x x' gs0 H Hgs.
  - injection H as <-. exists gs0. split; [exact Hgs|]. split; [intros f []|reflexivity].
  - rewrite Hgs in H.
    bind_inv H. bind_inv H. bind_inv H. bind_inv H. bind_inv H. bind_inv H.
    rewrite E in E1. injection E1 as <-.
    destruct (IH _ _ _ H eq_refl) as (gs & Hgs' & Hin & Hframe).
    exists gs. split; [exact Hgs'|]. split.
    + intros f' [<-|Hf'].
      * destruct (in_dec string_dec f tl) as [Hft|Hft]; [apply Hin; exact Hft|].
        exists a, a0, a2. repeat split; try assumption.
        -- rewrite Hframe.
           ++ rewrite !dict_get_set, String.eqb_refl.
              destruct (String.eqb_spec (f ++ "_ngroups") (f ++ "_matches")) as [Heq|_];
                [|reflexivity].
              apply append_suffix_inj in Heq; [|reflexivity].
              destruct Heq as [_ Heq]. discriminate Heq.
           ++ intros f'' Hf''. split; intro Heq;
                (apply append_suffix_inj in Heq; [|reflexivity]); destruct Heq as [Heq1 Heq2].
              ** subst f''. contradiction.
              ** discriminate Heq2.
        -- rewrite Hframe.
           ++ rewrite !dict_get_set, String.eqb_refl. reflexivity.
           ++ intros f'' Hf''. split; intro Heq;
                (apply append_suffix_inj in Heq; [|reflexivity]); destruct Heq as [Heq1 Heq2].
              ** discriminate Heq2.
              ** subst f''. contradiction.
      * apply Hin. exact Hf'.
    + intros k Hk. rewrite Hframe.
      * rewrite !dict_get_set.
        destruct (Hk f (or_introl eq_refl)) as [Hk1 Hk2].
        destruct (String.eqb_spec k (f ++ "_matches")); [contradiction|].
        destruct (String.eqb_spec k (f ++ "_ngroups")); [contradiction|].
        reflexivity.
      * intros f' Hf'. apply Hk. right. exact Hf'.
Qed.

(** The collection the loop leaves bound is the one of the last field. *)
Lemma grouped_loop_docs (g : json) (fs : list string) (f : string) :
  forall x x',
    grouped_loop g (map JStr (fs ++ [f])) x = Ok x' ->
    exists e d,
      getitem g (JStr f) = Ok e /\
      getitem e (JStr "groups") = Ok d /\
      x_docs x' = Some d /\
      x_path x' = Some [JStr "grouped"; JStr f; JStr "groups"] /\
      x_grouped x' = true.
Proof.
  induction fs as [|f0 tl IH]; simpl; intros x x' H.
  - do 6 bind_inv H. injection H as <-. simpl.
    exists a3, a4. repeat split; assumption.
  - do 6 bind_inv H. apply IH in H. exact H.
Qed.

(** C9: after a successful construction from a response without [response]
    whose [grouped] value is a mapping, the instance is in grouped mode,
    the metadata mapping holds under [<field>_ngroups] and
    [<field>_matches] the [ngroups] and [matches] of every field of
    [grouped], and the working collection is the group list of the last
    field in iteration order (as rewritten by the normalisation of lines
    28-31); the group lists of the earlier fields are not kept. *)
Theorem init_grouped_records_fields (data : json) (self : SolrResponse)
  (g : sdict json) :
  init data = Ok self ->
  contains "response" data = Ok false ->
  getitem data (JStr "grouped") = Ok (JDict g) ->
  grouped self = true /\
  (exists gs,
      groups self = Some gs /\
      forall field e,
        dict_get field g = Some e ->
        exists n m,
          getitem e (JStr "ngroups") = Ok n /\
          getitem e (JStr "matches") = Ok m /\
          dict_get (field ++ "_ngroups") gs = Some n /\
          dict_get (field ++ "_matches") gs = Some m) /\
  (forall g0 field e,
      g = g0 ++ [(field, e)] ->
      ~ In field (dict_keys g0) ->
      exists d,
        getitem e (JStr "groups") = Ok d /\
        normalize_docs d = Ok (docs self)).
Proof.
  intros Hinit Hc Hg.
  apply init_inv in Hinit.
  destruct Hinit as (h & qt & x & d & d' & _ & _ & Hx & Hd & Hn & ->). simpl.
  unfold extract in Hx. rewrite Hc in Hx. simpl in Hx.
  destruct (getitem_str_dict _ _ _ Hg) as (dd & -> & Hdd).
  simpl in Hx. rewrite (dict_get_mem _ _ _ Hdd) in Hx. simpl in Hx.
  rewrite Hdd in Hx. simpl in Hx.
  assert (Hgr : x_grouped x = true).
  { destruct (dict_keys g) as [|f fs] eqn:Ek.
    - simpl in Hx. injection Hx as <-. reflexivity.
    - destruct (exists_last (l := f :: fs)) as (fs0 & fl & Efs); [discriminate|].
      rewrite Efs in Hx. apply grouped_loop_docs in Hx.
      destruct Hx as (_ & _ & _ & _ & _ & _ & Hgr). exact Hgr. }
  split; [exact Hgr|]. split.
  - destruct (grouped_loop_groups _ _ _ _ _ Hx eq_refl) as (gs & Hgs & Hin & _).
    exists gs. split; [exact Hgs|].
    intros field e He.
    assert (Hf : In field (dict_keys g)).
    { clear - He. induction g as [|[k v] g IH]; simpl in *; [discriminate|].
      destruct (String.eqb_spec field k) as [->|]; [left; reflexivity | right; auto]. }
    destruct (Hin field Hf) as (e' & n & m & He' & H1 & H2 & H3 & H4).
    simpl in He'. rewrite He in He'. injection He' as <-.
    exists n, m. repeat split; assumption.
  - intros g0 field e -> Hnotin.
    unfold dict_keys in Hx. rewrite map_app in Hx. simpl in Hx.
    apply grouped_loop_docs in Hx.
    destruct Hx as (e' & d0 & He' & Hd0 & Hdocs & _ & _).
    simpl in He'. rewrite (dict_get_app field g0 _ Hnotin) in He'.
    simpl in He'. rewrite String.eqb_refl in He'. injection He' as <-.
    rewrite Hd in Hdocs. injection Hdocs as <-.
    exists d. split; assumption.
Qed.

Lemma init_grouped_records_fields_witness :
  exists self gs,
    init grouped_example = Ok self /\
    groups self = Some gs /\
    dict_get "brand_ngroups" gs = Some (JInt 2) /\
    dict_get "shop_matches" gs = Some (JInt 9) /\
    docs self = JList [JDict [("groupValue", JInt 44)]].
Proof.
  destruct (init grouped_example) as [self|e] eqn:E; [|discriminate E].
  destruct (init_grouped_records_fields grouped_example self
              [("brand",
                JDict [("matches", JInt 9); ("ngroups", JInt 2);
                       ("groups",
                        JList [JDict [("groupValue", JStr "acme")];
                               JDict [("groupValue", JStr "12")]])]);
               ("shop",
                JDict [("matches", JInt 9); ("ngroups", JInt 1);
                       ("groups", JList [JDict [("groupValue", JStr "44")]])])]
              E eq_refl eq_refl) as (_ & (gs & Hgs & Hfields) & Hlast).
  exists self, gs. split; [reflexivity|]. split; [exact Hgs|].
  destruct (Hfields "brand" _ eq_refl) as (n & m & Hn & _ & Hbn & _).
  destruct (Hfields "shop" _ eq_refl) as (n' & m' & _ & Hm' & _ & Hsm).
  simpl in Hn, Hm'. injection Hn as <-. injection Hm' as <-.
  split; [exact Hbn|]. split; [exact Hsm|].
  destruct (Hlast [("brand",
                    JDict [("matches", JInt 9); ("ngroups", JInt 2);
                           ("groups",
                            JList [JDict [("groupValue", JStr "acme")];
                                   JDict [("groupValue", JStr "12")]])])]
                  "shop"
                  (JDict [("matches", JInt 9); ("ngroups", JInt 1);
                          ("groups", JList [JDict [("groupValue", JStr "44")]])])
                  eq_refl) as (d & Hd & Hdocs).
  { simpl. intros [H|[]]. discriminate H. }
  simpl in Hd. injection Hd as <-.
  change (Ok (JList [JDict [("groupValue", JInt 44)]]) = Ok (docs self)) in Hdocs.
  injection Hdocs as Hdocs. symmetry. exact Hdocs.
Defined.

(** ** Facet fields *)

Lemma key_eqb_sym (a b : json) : key_eqb a b = key_eqb b a.
Proof.
  destruct a, b; simpl; try reflexivity.
  - destruct b, b0; reflexivity.
  - apply Z.eqb_sym.
  - apply Z.eqb_sym.
  - apply Z.eqb_sym.
  - apply String.eqb_sym.
Qed.

Lemma key_eqb_trans (a b c : json) :
  key_eqb a b = true -> key_eqb c b = key_eqb c a.
Proof.
  destruct a, b; simpl; try discriminate; intro H.
  - reflexivity.
  - apply Bool.eqb_prop in H. subst. reflexivity.
  - apply Z.eqb_eq in H. subst. destruct c; simpl; try reflexivity.
    destruct b, b0; reflexivity.
  - apply Z.eqb_eq in H. subst. destruct c; simpl; try reflexivity.
    destruct b, b0; reflexivity.
  - apply Z.eqb_eq in H. subst. reflexivity.
  - apply String.eqb_eq in H. subst. reflexivity.
Qed.

Lemma od_get_put {V : Type} (k k' : json) (v : V) (d : odict V) :
  od_get k (od_put k' v d) = if key_eqb k k' then Some v else od_get k d.
Proof.
  induction d as [|[k0 v0] d IH]; simpl; [reflexivity|].
  destruct (key_eqb k' k0) eqn:E; simpl.
  - rewrite (key_eqb_trans _ _ k E). destruct (key_eqb k k'); reflexivity.
  - rewrite IH. destruct (key_eqb k k0) eqn:E0; [|reflexivity].
    destruct (key_eqb k k') eqn:E1; [|reflexivity].
    rewrite (key_eqb_trans _ _ k' E0), key_eqb_sym, E1 in E. discriminate E.
Qed.

Lemma od_keys_put {V : Type} (k : json) (v : V) (d : odict V) :
  map fst (od_put k v d) =
  if existsb (key_eqb k) (map fst d) then map fst d else map fst d ++ [k].
Proof.
  induction d as [|[k0 v0] d IH]; simpl; [reflexivity|].
  destruct (key_eqb k k0); simpl; [reflexivity|].
  rewrite IH. destruct (existsb (key_eqb k) (map fst d)); reflexivity.
Qed.

(** Insertion in order: the last value wins, the first position stays. *)
Lemma od_of_pairs_spec {V : Type} (ps : list (json * V)) :
  forall acc od,
    od_of_pairs acc ps = Ok od ->
    (forall k,
        od_get k od =
        fold_left (fun r kv => if key_eqb k (fst kv) then Some (snd kv) else r)
                  ps (od_get k acc)) /\
    map fst od =
    fold_left (fun seen k => if existsb (key_eqb k) seen then seen else seen ++ [k])
              (map fst ps) (map fst acc).
Proof.
  induction ps as [|[k v] ps IH]; simpl; intros acc od H.
  - injection H as <-. split; reflexivity.
  - bind_inv H. unfold od_set in E. destruct (hashable k); [|discriminate].
    injection E as <-. destruct (IH _ _ H) as [Hget Hkeys]. split.
    + intro k0. rewrite Hget, od_get_put. reflexivity.
    + rewrite Hkeys, od_keys_put. reflexivity.
Qed.

Lemma od_of_pairs_total {V : Type} (ps : list (json * V)) :
  forallb hashable (map fst ps) = true ->
  forall acc, is_ok (od_of_pairs acc ps) = true.
Proof.
  induction ps as [|[k v] ps IH]; simpl; intros H acc; [reflexivity|].
  apply andb_prop in H. destruct H as [Hk Hps].
  unfold od_set. rewrite Hk. simpl. apply IH. exact Hps.
Qed.

Lemma list_ind2 {A : Type} (P : list A -> Prop) :
  P [] -> (forall x, P [x]) -> (forall x y l, P l -> P (x :: y :: l)) ->
  forall l, P l.
Proof.
  intros H0 H1 H2 l.
  assert (H : P l /\ forall x, P (x :: l)).
  { induction l as [|a l [IHa IHb]]; split; auto. }
  exact (proj1 H).
Qed.

Lemma evens_cons2 {A : Type} (x y : A) (l : list A) :
  evens (x :: y :: l) = x :: evens l.
Proof. reflexivity. Qed.

Lemma odds_cons2 {A : Type} (x y : A) (l : list A) :
  odds (x :: y :: l) = y :: odds l.
Proof. destruct l; reflexivity. Qed.

(** [zip(l[::2], l[1::2])] pairs each even index with the next one. *)
Lemma zip_slices_nth (l : list json) :
  forall i, nth_error (zip (evens l) (odds l)) i = pair_at l i.
Proof.
  induction l as [|x|x y l IH] using list_ind2; intro i.
  - unfold pair_at. destruct i; simpl; [reflexivity|].
    destruct (i + S (i + 0))%nat; reflexivity.
  - unfold pair_at. destruct i; simpl; [reflexivity|].
    replace (i + S (i + 0))%nat with (S (2 * i))%nat by lia. simpl.
    destruct (i + (i + 0))%nat; reflexivity.
  - rewrite evens_cons2, odds_cons2. unfold zip. simpl.
    destruct i as [|i]; [reflexivity|]. simpl.
    fold (zip (evens l) (odds l)). rewrite IH. unfold pair_at.
    replace (2 * S i)%nat with (S (S (2 * i)))%nat by lia.
    replace (S (S (2 * i)) + 1)%nat with (S (S (2 * i + 1)))%nat by lia.
    reflexivity.
Qed.

Lemma evens_In {A : Type} (l : list A) :
  forall x, In x (evens l) -> In x l.
Proof.
  induction l as [|a|a b l IH] using list_ind2; intros x H.
  - exact H.
  - exact H.
  - rewrite evens_cons2 in H. destruct H as [<-|H]; [left; reflexivity|].
    right. right. apply IH. exact H.
Qed.

Lemma zip_keys_In {A B : Type} (a : list A) (b : list B) :
  forall x, In x (map fst (zip a b)) -> In x a.
Proof.
  unfold zip. revert b. induction a as [|x0 a IH]; intros [|y b] x H; simpl in *;
    try contradiction.
  destruct H as [<-|H]; [left; reflexivity | right; apply (IH b); exact H].
Qed.

Lemma decode_flat_total (l : list json) :
  forallb hashable l = true -> is_ok (decode_flat (JList l)) = true.
Proof.
  intro H. unfold decode_flat. simpl. apply od_of_pairs_total.
  rewrite forallb_forall in *. intros x Hx. apply H.
  apply evens_In. apply (zip_keys_In _ _ _ Hx).
Qed.

Lemma existsb_keys {V : Type} (k : string) (d : sdict V) :
  existsb (String.eqb k) (dict_keys d) = dict_mem k d.
Proof.
  unfold dict_mem. induction d as [|[k' v'] d IH]; simpl; [reflexivity|].
  destruct (String.eqb k k'); [reflexivity | exact IH].
Qed.

Lemma mapping_at_dict (c : json) (k : string) (m : sdict json) :
  getitem c (JStr k) = Ok (JDict m) -> mapping_at c k = Ok (Some (JDict m)).
Proof.
  intro H. destruct (getitem_str_dict _ _ _ H) as (d & -> & Hd).
  unfold mapping_at. simpl. rewrite existsb_keys, (dict_get_mem _ _ _ Hd). simpl.
  rewrite Hd. reflexivity.
Qed.

Lemma facets_loop_good (ff : json) (fields : list string) :
  forall acc fs e,
    facets_loop ff fields acc = (fs, e) ->
    facets_good ff acc -> facets_good ff fs.
Proof.
  induction fields as [|f tl IH]; simpl; intros acc fs e H Hg.
  - injection H as <- _. exact Hg.
  - destruct (getitem ff (JStr f)) as [l|e0] eqn:El; simpl in H.
    + destruct (decode_flat l) as [od|e0] eqn:Eo.
      * apply (IH _ _ _ H). intros f' od' Hf'. rewrite dict_get_set in Hf'.
        destruct (String.eqb_spec f' f) as [->|_].
        -- injection Hf' as <-. exists l. split; assumption.
        -- apply Hg. exact Hf'.
      * injection H as <- _. exact Hg.
    + injection H as <- _. exact Hg.
Qed.

Lemma facets_loop_mem (ff : json) (fields : list string) :
  forall acc fs,
    facets_loop ff fields acc = (fs, None) ->
    forall f, In f fields \/ dict_mem f acc = true -> dict_mem f fs = true.
Proof.
  induction fields as [|f0 tl IH]; simpl; intros acc fs H f Hf.
  - injection H as <-. destruct Hf as [[]|Hf]. exact Hf.
  - destruct (getitem ff (JStr f0)) as [l|e0]; simpl in H; [|discriminate].
    destruct (decode_flat l) as [od|e0]; [|discriminate].
    apply (IH _ _ H). destruct Hf as [[<-|Hf]|Hf].
    + right. unfold dict_mem. rewrite dict_get_set, String.eqb_refl. reflexivity.
    + left. exact Hf.
    + right. unfold dict_mem in *. rewrite dict_get_set.
      destruct (String.eqb f f0); [reflexivity | exact Hf].
Qed.

Lemma facets_loop_total (ff : json) (fields : list string) :
  (forall f, In f fields ->
     exists l, getitem ff (JStr f) = Ok (JList l) /\ forallb hashable l = true) ->
  forall acc, snd (facets_loop ff fields acc) = None.
Proof.
  induction fields as [|f0 tl IH]; simpl; intros H acc; [reflexivity|].
  destruct (H f0 (or_introl eq_refl)) as (l & -> & Hl). simpl.
  pose proof (decode_flat_total l Hl) as Hok.
  destruct (decode_flat (JList l)); [|discriminate].
  apply IH. intros f Hf. apply H. right. exact Hf.
Qed.

(** The first call on a response that carries facet fields. *)
Lemma get_facets_first (self : SolrResponse) (fc ff : sdict json) :
  facets self = None ->
  getitem (data self) (JStr "facet_counts") = Ok (JDict fc) ->
  dict_get "facet_fields" fc = Some (JDict ff) ->
  snd (get_facets self) =
  match facets_loop (JDict ff) (dict_keys ff) [] with
  | (fs, None) => Ok fs
  | (_, Some e) => Err e
  end.
Proof.
  intros Hf Hfc Hff. unfold get_facets. rewrite Hf. simpl.
  rewrite (mapping_at_dict _ _ _ Hfc).
  rewrite (mapping_at_dict (JDict fc) "facet_fields" ff)
    by (simpl; rewrite Hff; reflexivity).
  simpl. destruct (facets_loop (JDict ff) (dict_keys ff) []) as [fs [e|]]; reflexivity.
Qed.

Lemma dict_get_key_In {V : Type} (k : string) (d : sdict V) (v : V) :
  dict_get k d = Some v -> In k (dict_keys d).
Proof.
  induction d as [|[k' v'] d IH]; simpl; [discriminate|].
  destruct (String.eqb_spec k k') as [->|]; [left; reflexivity | right; auto].
Qed.

(** C7: on the first call of [get_facets] that returns, every facet field
    whose raw value is a list [l] is stored as the ordered mapping built
    from the pairs (element at index [2i], element at index [2i+1]) taken
    in source order: looking a key up gives the value of the last pair
    with that key, and the keys iterate in the order of their first
    occurrence.  The call does return when every field is a list of
    scalars, and [["red", 3, "blue", 5, "red", 1]] is decoded to
    [{"red": 1, "blue": 5}] in that order. *)
Theorem get_facets_decodes_flat_lists :
  (forall self fc ff fs field l,
      facets self = None ->
      getitem (data self) (JStr "facet_counts") = Ok (JDict fc) ->
      dict_get "facet_fields" fc = Some (JDict ff) ->
      snd (get_facets self) = Ok fs ->
      dict_get field ff = Some (JList l) ->
      exists od,
        dict_get field fs = Some od /\
        (forall i, nth_error (zip (evens l) (odds l)) i = pair_at l i) /\
        (forall k, od_get k od = last_seen k (zip (evens l) (odds l))) /\
        map fst od = first_seen (map fst (zip (evens l) (odds l)))) /\
  (forall self fc ff,
      facets self = None ->
      getitem (data self) (JStr "facet_counts") = Ok (JDict fc) ->
      dict_get "facet_fields" fc = Some (JDict ff) ->
      (forall field v,
          dict_get field ff = Some v ->
          exists l, v = JList l /\ forallb hashable l = true) ->
      is_ok (snd (get_facets self)) = true) /\
  (exists self,
      init facets_example = Ok self /\
      snd (get_facets self) =
      Ok [("color", [(JStr "red", JInt 1); (JStr "blue", JInt 5)])]).
Proof.
  split; [|split].
  - intros self fc ff fs field l Hf Hfc Hff Hget Hl.
    rewrite (get_facets_first self fc ff Hf Hfc Hff) in Hget.
    destruct (facets_loop (JDict ff) (dict_keys ff) []) as [fs' [e|]] eqn:Eloop;
      [discriminate|].
    injection Hget as ->.
    pose proof (facets_loop_mem _ _ _ _ Eloop field
                  (or_introl (dict_get_key_In _ _ _ Hl))) as Hmem.
    unfold dict_mem in Hmem.
    destruct (dict_get field fs) as [od|] eqn:Eod; [|discriminate].
    destruct (facets_loop_good _ _ _ _ _ Eloop (fun _ _ F => ltac:(discriminate F))
                _ _ Eod) as (l' & Hl' & Hdec).
    simpl in Hl'. rewrite Hl in Hl'. injection Hl' as <-.
    unfold decode_flat in Hdec. simpl in Hdec.
    destruct (od_of_pairs_spec _ _ _ Hdec) as [Hlast Hfirst].
    exists od. split; [reflexivity|]. split; [apply zip_slices_nth|].
    split; [exact Hlast | exact Hfirst].
  - intros self fc ff Hf Hfc Hff Hflat.
    rewrite (get_facets_first self fc ff Hf Hfc Hff).
    pose proof (facets_loop_total (JDict ff) (dict_keys ff)) as Htot.
    destruct (facets_loop (JDict ff) (dict_keys ff) []) as [fs [e|]] eqn:Eloop;
      [|reflexivity].
    exfalso.
    assert (Hn : snd (facets_loop (JDict ff) (dict_keys ff) []) = None).
    { apply Htot. intros f Hin.
      assert (Hex : exists v, dict_get f ff = Some v).
      { clear - Hin. induction ff as [|[k v] ff IH]; simpl in *; [contradiction|].
        destruct (String.eqb_spec f k) as [->|Hne]; [eexists; reflexivity|].
        destruct Hin as [Hk|Hin]; [congruence | exact (IH Hin)]. }
      destruct Hex as (v & Hv). destruct (Hflat f v Hv) as (l & -> & Hl).
      exists l. split; [simpl; rewrite Hv; reflexivity | exact Hl]. }
    rewrite Eloop in Hn. discriminate Hn.
  - eexists. split; reflexivity.
Qed.

Lemma get_facets_decodes_flat_lists_witness :
  exists self fs od,
    init facets_example = Ok self /\
    snd (get_facets self) = Ok fs /\
    dict_get "color" fs = Some od /\
    od_get (JStr "red") od = Some (JInt 1) /\
    map fst od = [JStr "red"; JStr "blue"].
Proof.
  destruct (init facets_example) as [self|e] eqn:E; [|discriminate E].
  destruct (snd (get_facets self)) as [fs|e] eqn:Eg;
    [|injection E as <-; discriminate Eg].
  destruct (proj1 get_facets_decodes_flat_lists self
              [("facet_queries", JDict []);
               ("facet_fields",
                JDict [("color",
                        JList [JStr "red"; JInt 3; JStr "blue"; JInt 5;
                               JStr "red"; JInt 1])])]
              [("color",
                JList [JStr "red"; JInt 3; JStr "blue"; JInt 5; JStr "red"; JInt 1])]
              fs "color"
              [JStr "red"; JInt 3; JStr "blue"; JInt 5; JStr "red"; JInt 1])
    as (od & Hod & _ & Hlast & Hfirst).
  - injection E as <-. reflexivity.
  - injection E as <-. reflexivity.
  - reflexivity.
  - exact Eg.
  - reflexivity.
  - exists self, fs, od. split; [reflexivity|]. split; [exact Eg|].
    split; [exact Hod|]. split; [exact (Hlast (JStr "red")) | exact Hfirst].
Defined.

(** ** Repeated calls of the memoised accessors *)

(** C5, what the code does where the claim fails: on a response whose
    [facet_counts] has no [facet_ranges], the first call of
    [get_facets_ranges] returns [None] and the second returns the empty
    mapping, while the sibling [get_facets] returns the empty mapping both
    times on the same response; on a response without [facet_counts] the
    first call of [get_facets] raises and the second returns the empty
    mapping, and the first call of [get_facet_pivot] returns [None] and the
    second the empty mapping.  So a second call does not always return
    what the first returned. *)
Theorem memoized_second_call_differs :
  (exists self self1,
      init facet_counts_only_example = Ok self /\
      get_facets_ranges self = (self1, Ok None) /\
      snd (get_facets_ranges self1) = Ok (Some []) /\
      snd (get_facets self) = Ok [] /\
      snd (get_facets (fst (get_facets self))) = Ok []) /\
  (exists self self1 self2,
      init empty_example = Ok self /\
      get_facets self =
      (self1, Err (SolrResponseError "No Facet Information in the Response")) /\
      snd (get_facets self1) = Ok [] /\
      get_facet_pivot self = (self2, Ok None) /\
      snd (get_facet_pivot self2) = Ok (Some [])) /\
  ~ (forall data self,
        init data = Ok self ->
        snd (get_facets_ranges (fst (get_facets_ranges self))) =
        snd (get_facets_ranges self)).
Proof.
  split; [|split].
  - eexists. eexists. split; [reflexivity|]. repeat split; reflexivity.
  - eexists. eexists. eexists. split; [reflexivity|]. repeat split; reflexivity.
  - intro H.
    destruct (init facet_counts_only_example) as [self|e] eqn:E; [|discriminate E].
    specialize (H facet_counts_only_example self E).
    injection E as <-. discriminate H.
Qed.






(** ** Facet ranges *)

(** C4, refuted as stated: when [facet_counts] is a mapping in which
    [facet_ranges] is absent, or present but not a mapping, the first call
    of [get_facets_ranges] raises nothing and returns [None]. *)
Lemma get_facets_ranges_returns_none :
  (exists self,
      init facet_counts_only_example = Ok self /\
      snd (get_facets_ranges self) = Ok None) /\
  (exists self,
      init ranges_not_mapping_example = Ok self /\
      snd (get_facets_ranges self) = Ok None).
Proof. split; eexists; split; reflexivity. Qed.

Lemma mapping_at_cases (d : sdict json) (k : string) :
  mapping_at (JDict d) k =
  Ok (match dict_get k d with
      | Some v => if is_dict v then Some v else None
      | None => None
      end).
Proof.
  unfold mapping_at, keys, bind. rewrite existsb_keys. unfold dict_mem, getitem.
  destruct (dict_get k d); reflexivity.
Qed.

(** C4, amended: on an instance on which [get_facets_ranges] was not called
    before, the call raises [SolrResponseError] with the message
    ["No Facet Ranges in the Response"] whenever [facet_counts] is absent
    from the raw response or is not a mapping. *)
Theorem get_facets_ranges_raises (self : SolrResponse) (d : sdict json) :
  facet_ranges self = None ->
  data self = JDict d ->
  (dict_get "facet_counts" d = None \/
   exists v, dict_get "facet_counts" d = Some v /\ is_dict v = false) ->
  snd (get_facets_ranges self) =
  Err (SolrResponseError "No Facet Ranges in the Response").
Proof.
  intros Hr Hd H. unfold get_facets_ranges. rewrite Hr.
  cbv zeta. change (data (with_facet_ranges self [])) with (data self).
  rewrite Hd, mapping_at_cases.
  destruct H as [H|(v & H & Hv)]; rewrite H; [reflexivity|].
  rewrite Hv. reflexivity.
Qed.

Lemma get_facets_ranges_raises_witness :
  exists self,
    init empty_example = Ok self /\
    snd (get_facets_ranges self) =
    Err (SolrResponseError "No Facet Ranges in the Response").
Proof.
  destruct (init empty_example) as [self|e] eqn:E; [|discriminate E].
  exists self. split; [reflexivity|].
  apply (get_facets_ranges_raises self
           [("responseHeader", JDict [("status", JInt 0); ("QTime", JInt 1)])]).
  - injection E as <-. reflexivity.
  - injection E as <-. reflexivity.
  - left. reflexivity.
Defined.

(** ** Keys and values of one facet field *)

(** C8, what the code does: once [get_facets] has returned the mapping
    [fs], a field absent from [fs] makes [get_facet_values_as_list] raise
    [SolrResponseError] while [get_facet_keys_as_list] raises nothing and
    returns [None]; a field present in [fs] makes
    [get_facet_keys_as_list] return its keys in order. *)
Theorem get_facet_keys_as_list_cases (self : SolrResponse)
  (fs : sdict (odict json)) (field : string) :
  snd (get_facets self) = Ok fs ->
  (dict_get field fs = None ->
   snd (get_facet_values_as_list self field) =
   Err (SolrResponseError "No field in facet output") /\
   snd (get_facet_keys_as_list self field) = Ok KNone) /\
  (forall od,
      dict_get field fs = Some od ->
      snd (get_facet_keys_as_list self field) = Ok (KKeys (map fst od))).
Proof.
  intro H. unfold get_facet_values_as_list, get_facet_keys_as_list.
  destruct (get_facets self) as [s r]. simpl in H. subst r. simpl.
  split.
  - intros ->. split; reflexivity.
  - intros od ->. reflexivity.
Qed.

Lemma get_facet_keys_as_list_cases_witness :
  exists self,
    init facets_example = Ok self /\
    snd (get_facet_values_as_list self "size") =
    Err (SolrResponseError "No field in facet output") /\
    snd (get_facet_keys_as_list self "size") = Ok KNone /\
    snd (get_facet_keys_as_list self "color") = Ok (KKeys [JStr "red"; JStr "blue"]).
Proof.
  destruct (init facets_example) as [self|e] eqn:E; [|discriminate E].
  exists self. split; [reflexivity|].
  assert (Hfs : snd (get_facets self) =
                Ok [("color", [(JStr "red", JInt 1); (JStr "blue", JInt 5)])]).
  { injection E as <-. reflexivity. }
  destruct (get_facet_keys_as_list_cases self _ "size" Hfs) as [Habsent _].
  destruct (get_facet_keys_as_list_cases self _ "color" Hfs) as [_ Hpresent].
  destruct (Habsent eq_refl) as [Hv Hk].
  split; [exact Hv|]. split; [exact Hk|].
  exact (Hpresent _ eq_refl).
Defined.

(** ** The serialised response *)

(** The stored response of an ungrouped instance holds the rewritten
    documents: [self.docs] and [self.data['response']['docs']] are one
    object. *)
Lemma init_stores_rewritten_docs (data0 : json) (self : SolrResponse)
  (response : json) :
  init data0 = Ok self ->
  getitem data0 (JStr "response") = Ok response ->
  exists r',
    getitem (data self) (JStr "response") = Ok r' /\
    getitem r' (JStr "docs") = Ok (docs self).
Proof.
  intros Hinit Hr. apply init_inv in Hinit.
  destruct Hinit as (h & qt & x & d & d' & _ & _ & Hx & Hd & Hn & ->).
  destruct (getitem_str_dict _ _ _ Hr) as (dd & -> & Hdd).
  unfold extract in Hx. cbn [contains bind] in Hx.
  rewrite (dict_get_mem _ _ _ Hdd) in Hx. rewrite Hr in Hx. cbn [bind] in Hx.
  bind_inv Hx. bind_inv Hx. bind_inv Hx. injection Hx as <-.
  cbn [x_docs] in Hd. injection Hd as <-.
  destruct (getitem_str_dict _ _ _ E) as (rd & -> & Hrd).
  cbn [data docs x_path put_path]. rewrite Hr. cbn [put_path]. rewrite E.
  cbn [putitem].
  exists (JDict (dict_set "docs" d' rd)). split.
  - cbn [getitem]. rewrite dict_get_set, String.eqb_refl. reflexivity.
  - cbn [getitem]. rewrite dict_get_set, String.eqb_refl. reflexivity.
Qed.

(** C3, what the code does on the response of the example: the constructor
    rewrites the documents inside the stored response, so the stored
    response differs from the input and [get_json] prints the rewritten
    one, with [100] and [7] where the input had the strings ["100"] and
    ["007"]. *)
Theorem get_json_prints_rewritten_response :
  exists self,
    init ungrouped_example = Ok self /\
    data self <> ungrouped_example /\
    get_json self =
    ("{" ++ q "responseHeader" ++ ": {" ++ q "status" ++ ": 0, " ++ q "QTime" ++ ": 3}, "
         ++ q "response" ++ ": {" ++ q "numFound" ++ ": 50, " ++ q "start" ++ ": 0, "
         ++ q "docs" ++ ": [{" ++ q "price" ++ ": 100, " ++ q "name" ++ ": " ++ q "abc"
         ++ ", " ++ q "code" ++ ": 7}]}}")%string /\
    json_dumps ungrouped_example =
    ("{" ++ q "responseHeader" ++ ": {" ++ q "status" ++ ": 0, " ++ q "QTime" ++ ": 3}, "
         ++ q "response" ++ ": {" ++ q "numFound" ++ ": 50, " ++ q "start" ++ ": 0, "
         ++ q "docs" ++ ": [{" ++ q "price" ++ ": " ++ q "100" ++ ", " ++ q "name" ++ ": "
         ++ q "abc" ++ ", " ++ q "code" ++ ": " ++ q "007" ++ "}]}}")%string.
Proof.
  eexists. split; [reflexivity|]. split; [|split].
  - simpl. discriminate.
  - vm_compute. reflexivity.
  - vm_compute. reflexivity.
Qed.

(** ** Facet pivots *)

Lemma json_size_dict_get (k : string) (d : sdict json) (p : json) :
  dict_get k d = Some p -> (json_size p < json_size (JDict d))%nat.
Proof.
  simpl. induction d as [|[k' v'] d IH]; simpl; [discriminate|].
  destruct (String.eqb k k').
  - intro H. injection H as ->. lia.
  - intro H. apply IH in H. lia.
Qed.

Lemma json_size_In (s : json) (l : list json) :
  In s l -> (json_size s < json_size (JList l))%nat.
Proof.
  simpl. induction l as [|a l IH]; simpl; [contradiction|].
  intros [->|H]; [lia | apply IH in H; lia].
Qed.

Lemma rec_sets_returns (rec : json -> option (result (odict pyval)))
  (c : json) (sets : list json) :
  (forall s p, In s sets -> getitem s (JStr "pivot") = Ok p -> rec p <> None) ->
  forall out, rec_sets rec c sets out <> None.
Proof.
  induction sets as [|s tl IH]; cbn [rec_sets]; intros H out; [discriminate|].
  destruct (keys s) as [ks|e]; [|discriminate].
  destruct (existsb (String.eqb "pivot") ks).
  - destruct (getitem s (JStr "pivot")) as [p|e] eqn:Ep; [|discriminate].
    pose proof (H s p (or_introl eq_refl) Ep) as Hp.
    destruct (rec p) as [[sub|e]|]; [|discriminate|contradiction].
    destruct (bind _ _); [|discriminate].
    apply IH. intros s' p' Hs'. apply H. right. exact Hs'.
  - destruct (bind _ _); [|discriminate].
    apply IH. intros s' p' Hs'. apply H. right. exact Hs'.
Qed.

(** The bound [json_size] is never reached. *)
Lemma rec_subfield_fuel_returns (n : nat) :
  forall v, (json_size v <= n)%nat -> rec_subfield_fuel n v <> None.
Proof.
  induction n as [|n IH]; intros v Hv.
  - destruct v; simpl in Hv; lia.
  - destruct v as [| b | z | s | l | d]; simpl; try discriminate.
    + apply rec_sets_returns. intros s p Hs Hp. apply IH.
      destruct (getitem_str_dict _ _ _ Hp) as (d & -> & Hd).
      apply json_size_dict_get in Hd. apply json_size_In in Hs. lia.
    + destruct (dict_mem "pivot" d); [|discriminate].
      destruct (dict_get "pivot" d) as [p|] eqn:Ep; [|discriminate].
      assert (Hp : rec_subfield_fuel n p <> None).
      { apply IH. apply json_size_dict_get in Ep. lia. }
      destruct (rec_subfield_fuel n p) as [[sub|e]|]; [discriminate|discriminate|contradiction].
Qed.

Lemma rec_sets_mono (rec1 rec2 : json -> option (result (odict pyval)))
  (c : json) (sets : list json) :
  (forall p r, rec1 p = Some r -> rec2 p = Some r) ->
  forall out r, rec_sets rec1 c sets out = Some r -> rec_sets rec2 c sets out = Some r.
Proof.
  intro H. induction sets as [|s tl IH]; cbn [rec_sets]; intros out r Hr; [exact Hr|].
  destruct (keys s) as [ks|e]; [|exact Hr].
  destruct (existsb (String.eqb "pivot") ks).
  - destruct (getitem s (JStr "pivot")) as [p|e]; [|exact Hr].
    destruct (rec1 p) as [r1|] eqn:E1; [|discriminate].
    rewrite (H _ _ E1). destruct r1 as [sub|e]; [|exact Hr].
    destruct (bind _ _); [apply IH; exact Hr | exact Hr].
  - destruct (bind _ _); [apply IH; exact Hr | exact Hr].
Qed.

(** A larger bound gives the same result. *)
Lemma rec_subfield_fuel_mono (n : nat) :
  forall m v r,
    (n <= m)%nat -> rec_subfield_fuel n v = Some r -> rec_subfield_fuel m v = Some r.
Proof.
  induction n as [|n IH]; intros m v r Hle H; [discriminate|].
  destruct m as [|m]; [lia|].
  destruct v as [| b | z | s | l | d]; simpl in *; try exact H.
  - apply (rec_sets_mono (rec_subfield_fuel n)); [|exact H].
    intros p r0. apply IH. lia.
  - destruct (dict_mem "pivot" d); [|exact H].
    destruct (dict_get "pivot" d) as [p|]; [|exact H].
    destruct (rec_subfield_fuel n p) as [r1|] eqn:E1; [|discriminate].
    rewrite (IH m p r1 ltac:(lia) E1). exact H.
Qed.

Lemma rec_subfield_fuel_eq (n : nat) (v : json) :
  (json_size v <= n)%nat -> rec_subfield_fuel n v = Some (_rec_subfield v).
Proof.
  intro H. unfold _rec_subfield.
  pose proof (rec_subfield_fuel_returns (json_size v) v (le_n _)) as Hr.
  destruct (rec_subfield_fuel (json_size v) v) as [r|] eqn:E; [|contradiction].
  apply (rec_subfield_fuel_mono _ _ _ _ H E).
Qed.

(** Lines 173-176 as an equation: an entry with a [pivot] key is bound to
    the decoding of its sub-list, an entry without one gives the empty
    mapping. *)
Lemma rec_subfield_dict (d : sdict json) :
  _rec_subfield (JDict d) =
  match dict_get "pivot" d with
  | Some p =>
      sub <- _rec_subfield p ;;
      k <- getitem (JDict d) (JStr "value") ;;
      od_set k (PDict sub) []
  | None => Ok []
  end.
Proof.
  unfold _rec_subfield at 1.
  destruct (json_size (JDict d)) as [|n] eqn:En; [simpl in En; lia|].
  simpl. unfold dict_mem.
  destruct (dict_get "pivot" d) as [p|] eqn:Ep; [|reflexivity].
  rewrite (rec_subfield_fuel_eq n p)
    by (apply json_size_dict_get in Ep; lia).
  destruct (_rec_subfield p); reflexivity.
Qed.

(** Lines 168-170: inside a list, an entry with a [pivot] key makes the
    call raise, whatever follows: the subscript of line 170 is applied to
    the list. *)
Lemma rec_subfield_list_pivot (d : sdict json) (tl : list json) :
  dict_mem "pivot" d = true ->
  is_ok (_rec_subfield (JList (JDict d :: tl))) = false.
Proof.
  intro H. unfold _rec_subfield.
  destruct (json_size (JList (JDict d :: tl))) as [|n] eqn:En; [simpl in En; lia|].
  cbn [rec_subfield_fuel rec_sets keys]. rewrite existsb_keys, H.
  unfold dict_mem in H. cbn [getitem].
  destruct (dict_get "pivot" d) as [p|] eqn:Ep; [|discriminate].
  rewrite (rec_subfield_fuel_eq n p).
  - destruct (_rec_subfield p); reflexivity.
  - apply json_size_dict_get in Ep. simpl in En. simpl in Ep. lia.
Qed.

(** C1, what the code does on the entries of the example: the entry ["A"]
    is bound to [{"X": 1, "Y": 1}] but the entry ["B"], which has no
    [pivot], is dropped, so the decoded mapping is [{"A": {"X": 1, "Y": 1}}]
    and not [{"A": {"X": 1, "Y": 1}, "B": 1}]; with three pivot levels the
    call raises [TypeError] instead of decoding. *)
Theorem get_facet_pivot_example :
  (exists self,
      init pivot_example = Ok self /\
      snd (get_facet_pivot self) =
      Ok (Some [(JStr "cat,sub",
                 [(JStr "A",
                   PDict [(JStr "X", PJson (JInt 1)); (JStr "Y", PJson (JInt 1))])])])) /\
  (exists self,
      init pivot3_example = Ok self /\
      snd (get_facet_pivot self) = Err TypeError).
Proof. split; eexists; split; reflexivity. Qed.

(** * Further properties of the constructor and the accessors *)

(** ** What the normalisation does to mapping documents *)

Lemma normalize_doc_mapping (d : sdict json) :
  NoDup (dict_keys d) ->
  normalize_doc (JDict d) =
  if forallb coerce_ok (map snd d)
  then Ok (JDict (map coerce_entry d))
  else Err ValueError.
Proof.
  intro Hnd. unfold normalize_doc. cbn [iter bind].
  exact (normalize_fields_dict d [] Hnd (fun _ _ F => F)).
Qed.

Lemma normalize_all_mappings (l : list json) :
  Forall mapping_doc l ->
  mapM normalize_doc l =
  if forallb doc_ok l then Ok (map coerce_doc l) else Err ValueError.
Proof.
  induction 1 as [|doc l Hdoc Hl IH]; [reflexivity|].
  destruct Hdoc as (d & -> & Hnd).
  cbn [mapM forallb map doc_ok coerce_doc].
  rewrite (normalize_doc_mapping d Hnd).
  destruct (forallb coerce_ok (map snd d)); cbn [bind andb]; [|reflexivity].
  rewrite IH. destruct (forallb doc_ok l); reflexivity.
Qed.

Lemma coerce_not_digit_str (v : json) : is_digit_str (coerce v) = false.
Proof.
  destruct v as [| b | n | s | l | d]; try reflexivity.
  cbn [coerce]. destruct (isdigit s) eqn:E; [reflexivity | exact E].
Qed.

Lemma coerce_fixed (v : json) : is_digit_str v = false -> coerce v = v.
Proof.
  destruct v as [| b | n | s | l | d]; try reflexivity.
  cbn [is_digit_str coerce]. intros ->. reflexivity.
Qed.

Lemma coerce_ok_fixed (v : json) : is_digit_str v = false -> coerce_ok v = true.
Proof.
  destruct v as [| b | n | s | l | d]; try reflexivity.
  cbn [is_digit_str coerce_ok]. intros ->. reflexivity.
Qed.

Lemma coerce_doc_mapping (doc : json) :
  mapping_doc doc -> mapping_doc (coerce_doc doc).
Proof.
  intros (d & -> & Hnd). exists (map coerce_entry d). split; [reflexivity|].
  unfold dict_keys. rewrite map_map. exact Hnd.
Qed.

Lemma coerce_doc_ok (doc : json) : doc_ok (coerce_doc doc) = true.
Proof.
  destruct doc as [| b | n | s | l | d]; try reflexivity.
  cbn [coerce_doc doc_ok]. rewrite map_map. apply forallb_forall.
  intros v Hv. apply in_map_iff in Hv. destruct Hv as ([k v0] & <- & _).
  apply coerce_ok_fixed. apply coerce_not_digit_str.
Qed.

Lemma coerce_doc_fixed (doc : json) : coerce_doc (coerce_doc doc) = coerce_doc doc.
Proof.
  destruct doc as [| b | n | s | l | d]; try reflexivity.
  cbn [coerce_doc]. f_equal. rewrite map_map. apply map_ext.
  intros [k v]. unfold coerce_entry. cbn [fst snd]. f_equal.
  apply coerce_fixed. apply coerce_not_digit_str.
Qed.

(** X9: on a list of mapping documents the rewrite of lines 28-31 reaches a
    fixed point at once: applied to its own result it succeeds and changes
    nothing. *)
Theorem normalize_docs_idempotent (l : list json) (ds : json) :
  Forall mapping_doc l ->
  normalize_docs (JList l) = Ok ds ->
  normalize_docs ds = Ok ds.
Proof.
  intros Hl H. cbn [normalize_docs] in H.
  rewrite (normalize_all_mappings l Hl) in H.
  destruct (forallb doc_ok l); [|discriminate].
  cbn [bind] in H. injection H as <-.
  cbn [normalize_docs]. rewrite normalize_all_mappings.
  - assert (Hok : forallb doc_ok (map coerce_doc l) = true).
    { apply forallb_forall. intros x Hx. apply in_map_iff in Hx.
      destruct Hx as (y & <- & _). apply coerce_doc_ok. }
    rewrite Hok. cbn [bind]. rewrite map_map.
    do 2 f_equal. apply map_ext. intro x. apply coerce_doc_fixed.
  - rewrite Forall_forall in *. intros x Hx. apply in_map_iff in Hx.
    destruct Hx as (y & <- & Hy). apply coerce_doc_mapping. apply Hl. exact Hy.
Qed.

Lemma normalize_docs_idempotent_witness :
  normalize_docs (JList [JDict [("id", JInt 7); ("price", JInt 15)]]) =
  Ok (JList [JDict [("id", JInt 7); ("price", JInt 15)]]).
Proof.
  apply (normalize_docs_idempotent [JDict [("id", JStr "7"); ("price", JStr "15")]]).
  - constructor; [|constructor]. eexists. split; [reflexivity|].
    repeat constructor; simpl; intuition discriminate.
  - reflexivity.
Defined.

(** ** Construction *)

Lemma extract_ungrouped (d r : sdict json) (ds : json) :
  dict_get "response" d = Some (JDict r) ->
  dict_get "docs" r = Some ds ->
  extract (JDict d) =
  Ok (mkExtracted false (Some ds) (Some [JStr "response"; JStr "docs"])
                  (dict_get "numFound" r) None).
Proof.
  intros Hr Hd. unfold extract. cbn [contains bind].
  rewrite (dict_get_mem _ _ _ Hr). cbn [getitem]. rewrite Hr. cbn [bind getitem].
  rewrite Hd. cbn [bind contains]. unfold dict_mem.
  destruct (dict_get "numFound" r); reflexivity.
Qed.

(** X2: the constructor needs [responseHeader] and its [QTime]: on a
    mapping without [responseHeader], or whose [responseHeader] is a
    mapping without [QTime], it raises [KeyError] whatever else the
    response holds; and the [header] and [query_time] of every instance it
    builds are the [responseHeader] of the input and its [QTime]. *)
Theorem init_needs_header :
  (forall d,
      (dict_get "responseHeader" d = None \/
       exists h, dict_get "responseHeader" d = Some (JDict h) /\
                 dict_get "QTime" h = None) ->
      init (JDict d) = Err KeyError) /\
  (forall data0 self,
      init data0 = Ok self ->
      getitem data0 (JStr "responseHeader") = Ok (header self) /\
      getitem (header self) (JStr "QTime") = Ok (query_time self)).
Proof.
  split.
  - intros d [H|(h & H & Hq)]; unfold init; cbn [getitem]; rewrite H; cbn [bind].
    + reflexivity.
    + cbn [getitem]. rewrite Hq. reflexivity.
  - intros data0 self H. apply init_inv in H.
    destruct H as (h & qt & x & d & d' & Hh & Hq & _ & _ & _ & ->).
    split; assumption.
Qed.

Lemma init_needs_header_witness :
  init (JDict [("response", JDict [("docs", JList [])])]) = Err KeyError /\
  (exists self,
      init cursor_example = Ok self /\
      getitem cursor_example (JStr "responseHeader") = Ok (header self) /\
      getitem (header self) (JStr "QTime") = Ok (query_time self)).
Proof.
  split.
  - apply (proj1 init_needs_header). left. reflexivity.
  - destruct (init cursor_example) as [self|e] eqn:E; [|discriminate E].
    exists self. split; [reflexivity|].
    exact (proj2 init_needs_header cursor_example self E).
Defined.

(** X10: for an ungrouped response whose documents are mappings the
    constructor has one way to fail: it raises [ValueError] when some
    field holds a string that [str.isdigit] accepts and [int] rejects, a
    digit that is not decimal or more digits than the interpreter's limit
    of 4300; otherwise it builds the ungrouped instance whose documents
    are the rewritten ones, whose count is [numFound] when present, and
    whose stored response holds the rewritten documents. *)
Theorem init_ungrouped_mappings (d h r : sdict json) (qtime : json)
  (l : list json) :
  dict_get "responseHeader" d = Some (JDict h) ->
  dict_get "QTime" h = Some qtime ->
  dict_get "response" d = Some (JDict r) ->
  dict_get "docs" r = Some (JList l) ->
  Forall mapping_doc l ->
  init (JDict d) =
  if forallb doc_ok l
  then Ok (mkSolrResponse
             (JDict (dict_set "response"
                              (JDict (dict_set "docs" (JList (map coerce_doc l)) r)) d))
             qtime (JDict h) false (JList (map coerce_doc l))
             (dict_get "numFound" r) None None None None)
  else Err ValueError.
Proof.
  intros Hh Hq Hr Hd Hl. unfold init. cbn [getitem]. rewrite Hh. cbn [bind getitem].
  rewrite Hq. cbn [bind]. rewrite (extract_ungrouped d r _ Hr Hd).
  cbn [bind x_docs normalize_docs]. rewrite (normalize_all_mappings l Hl).
  destruct (forallb doc_ok l); [|reflexivity].
  cbn [bind x_path x_grouped x_num_found x_groups put_path getitem].
  rewrite Hr. cbn [put_path getitem]. rewrite Hd. reflexivity.
Qed.

Lemma init_ungrouped_mappings_witness :
  is_ok (init ungrouped_example) = true /\
  init (JDict [("responseHeader", JDict [("QTime", JInt 1)]);
               ("response", JDict [("docs", JList [superscript_doc])])])
  = Err ValueError.
Proof.
  split.
  - unfold ungrouped_example.
    rewrite (init_ungrouped_mappings
               [("responseHeader", JDict [("status", JInt 0); ("QTime", JInt 3)]);
                ("response",
                 JDict [("numFound", JInt 50); ("start", JInt 0);
                        ("docs",
                         JList [JDict [("price", JStr "100"); ("name", JStr "abc");
                                       ("code", JStr "007")]])])]
               [("status", JInt 0); ("QTime", JInt 3)]
               [("numFound", JInt 50); ("start", JInt 0);
                ("docs",
                 JList [JDict [("price", JStr "100"); ("name", JStr "abc");
                               ("code", JStr "007")]])]
               (JInt 3)
               [JDict [("price", JStr "100"); ("name", JStr "abc"); ("code", JStr "007")]]
               eq_refl eq_refl eq_refl eq_refl).
    + reflexivity.
    + constructor; [|constructor]. eexists. split; [reflexivity|].
      repeat constructor; simpl; intuition discriminate.
  - rewrite (init_ungrouped_mappings
               [("responseHeader", JDict [("QTime", JInt 1)]);
                ("response", JDict [("docs", JList [superscript_doc])])]
               [("QTime", JInt 1)]
               [("docs", JList [superscript_doc])]
               (JInt 1) [superscript_doc]
               eq_refl eq_refl eq_refl eq_refl).
    + reflexivity.
    + constructor; [|constructor]. eexists. split; [reflexivity|].
      repeat constructor; simpl; intuition.
Defined.

Lemma mapM_length {A B : Type} (f : A -> result B) (l : list A) (l' : list B) :
  mapM f l = Ok l' -> List.length l' = List.length l.
Proof. intro H. exact (proj1 (mapM_nth f l l' H)). Qed.

(** X1: [get_results_count] is the number of documents of the response:
    for an ungrouped response whose [docs] is a list of any [N] documents
    the constructed instance counts [N], the rewrite of the documents
    neither adding nor dropping one; for a response with neither
    [response] nor [grouped] it counts [0] and the stored response is the
    input. *)
Theorem get_results_count_spec :
  (forall data0 self response l,
      init data0 = Ok self ->
      getitem data0 (JStr "response") = Ok response ->
      getitem response (JStr "docs") = Ok (JList l) ->
      get_results_count self = Ok (Z.of_nat (List.length l))) /\
  (forall data0 self,
      init data0 = Ok self ->
      contains "response" data0 = Ok false ->
      contains "grouped" data0 = Ok false ->
      get_results_count self = Ok 0 /\ data self = data0 /\ grouped self = false).
Proof.
  split.
  - intros data0 self response l Hinit Hr Hd.
    apply init_inv in Hinit.
    destruct Hinit as (h & qt & x & d & d' & _ & _ & Hx & Hxd & Hn & ->).
    destruct (getitem_str_dict _ _ _ Hr) as (dd & -> & Hdd).
    destruct (getitem_str_dict _ _ _ Hd) as (rd & -> & Hrd).
    rewrite (extract_ungrouped dd rd _ Hdd Hrd) in Hx. injection Hx as <-.
    cbn [x_docs] in Hxd. injection Hxd as <-.
    cbn [normalize_docs] in Hn. bind_inv Hn. injection Hn as <-.
    unfold get_results_count. cbn [docs len].
    rewrite (mapM_length _ _ _ E). reflexivity.
  - intros data0 self Hinit Hr Hg.
    apply init_inv in Hinit.
    destruct Hinit as (h & qt & x & d & d' & _ & _ & Hx & Hxd & Hn & ->).
    unfold extract in Hx. rewrite Hr in Hx. cbn [bind] in Hx.
    rewrite Hg in Hx. cbn [bind] in Hx. injection Hx as <-.
    cbn [x_docs] in Hxd. injection Hxd as <-.
    cbn in Hn. injection Hn as <-.
    split; [reflexivity|]. split; reflexivity.
Qed.

Lemma get_results_count_spec_witness :
  (exists self, init cursor_example = Ok self /\ get_results_count self = Ok 2) /\
  (exists self, init empty_example = Ok self /\ get_results_count self = Ok 0).
Proof.
  split.
  - destruct (init cursor_example) as [self|e] eqn:E; [|discriminate E].
    exists self. split; [reflexivity|].
    apply (proj1 get_results_count_spec cursor_example self
             (JDict [("numFound", JInt 2); ("start", JInt 0);
                     ("docs",
                      JList [JDict [("id", JStr "a1"); ("price", JStr "15")];
                             JDict [("id", JStr "b2")]])])
             [JDict [("id", JStr "a1"); ("price", JStr "15")]; JDict [("id", JStr "b2")]]);
      [exact E | reflexivity | reflexivity].
  - destruct (init empty_example) as [self|e] eqn:E; [|discriminate E].
    exists self. split; [reflexivity|].
    exact (proj1 (proj2 get_results_count_spec empty_example self E eq_refl eq_refl)).
Defined.

(** ** What the constructor leaves of the raw response *)

Lemma dict_keys_set {V : Type} (k : string) (v : V) (d : sdict V) :
  dict_mem k d = true -> dict_keys (dict_set k v d) = dict_keys d.
Proof.
  unfold dict_mem. induction d as [|[k' v'] d IH]; cbn [dict_get dict_set]; [discriminate|].
  destruct (String.eqb k k'); [reflexivity|].
  intro H. cbn [dict_keys map fst]. f_equal. apply IH. exact H.
Qed.

Lemma put_path_top (d : sdict json) (k0 : string) (tl : list json) (v : json) :
  exists d',
    put_path (JDict d) (JStr k0 :: tl) v = JDict d' /\
    dict_keys d' = dict_keys d /\
    forall k, k <> k0 -> dict_get k d' = dict_get k d.
Proof.
  cbn [put_path getitem]. destruct (dict_get k0 d) as [sub|] eqn:E.
  - cbn [putitem]. eexists. split; [reflexivity|]. split.
    + apply dict_keys_set. exact (dict_get_mem _ _ _ E).
    + intros k Hk. rewrite dict_get_set.
      destruct (String.eqb_spec k k0); [contradiction | reflexivity].
  - exists d. split; [reflexivity|]. split; reflexivity.
Qed.

Lemma grouped_loop_path (g : json) (fields : list json) :
  forall x x',
    grouped_loop g fields x = Ok x' ->
    x_path x' = x_path x \/ exists tl, x_path x' = Some (JStr "grouped" :: tl).
Proof.
  induction fields as [|f tl IH]; cbn [grouped_loop]; intros x x' H.
  - injection H as <-. left. reflexivity.
  - repeat bind_inv H. apply IH in H. cbn [x_path] in H.
    destruct H as [H|H]; right; [eexists; exact H | exact H].
Qed.

Lemma extract_path (data0 : json) (x : extracted) :
  extract data0 = Ok x ->
  x_path x = None \/
  exists k tl, (k = "response" \/ k = "grouped") /\ x_path x = Some (JStr k :: tl).
Proof.
  unfold extract. intro H. bind_inv H. destruct a.
  - repeat bind_inv H. injection H as <-. right.
    exists "response", [JStr "docs"]. split; [left|]; reflexivity.
  - bind_inv H. destruct a.
    + repeat bind_inv H. apply grouped_loop_path in H. cbn [x_path] in H.
      destruct H as [H|(tl & H)]; [left; exact H|].
      right. exists "grouped", tl. split; [right; reflexivity | exact H].
    + injection H as <-. left. reflexivity.
Qed.

Lemma init_data_other_keys (d : sdict json) (self : SolrResponse) :
  init (JDict d) = Ok self ->
  exists d',
    data self = JDict d' /\
    forall k, k <> "response" -> k <> "grouped" -> dict_get k d' = dict_get k d.
Proof.
  intro Hinit. apply init_inv in Hinit.
  destruct Hinit as (h & qt & x & ds & ds' & _ & _ & Hx & _ & _ & ->).
  cbn [data]. destruct (extract_path _ _ Hx) as [Hp|(k0 & tl & Hk0 & Hp)]; rewrite Hp.
  - exists d. split; reflexivity.
  - destruct (put_path_top d k0 tl ds') as (d' & Hd' & _ & Hget).
    exists d'. split; [exact Hd'|].
    intros k H1 H2. apply Hget. destruct Hk0; subst; assumption.
Qed.

(** X3: the constructor rewrites the raw response nowhere but below
    [response] or [grouped]: the stored response has the keys of the input
    in the same order, and every other top-level key holds what it held. *)
Theorem init_keeps_other_keys (d : sdict json) (self : SolrResponse) :
  init (JDict d) = Ok self ->
  exists d',
    data self = JDict d' /\
    dict_keys d' = dict_keys d /\
    forall k, k <> "response" -> k <> "grouped" -> dict_get k d' = dict_get k d.
Proof.
  intro Hinit. apply init_inv in Hinit.
  destruct Hinit as (h & qt & x & ds & ds' & _ & _ & Hx & _ & _ & ->).
  cbn [data]. destruct (extract_path _ _ Hx) as [Hp|(k0 & tl & Hk0 & Hp)]; rewrite Hp.
  - exists d. split; [reflexivity|]. split; reflexivity.
  - destruct (put_path_top d k0 tl ds') as (d' & Hd' & Hkeys & Hget).
    exists d'. split; [exact Hd'|]. split; [exact Hkeys|].
    intros k H1 H2. apply Hget. destruct Hk0; subst; assumption.
Qed.

Lemma init_keeps_other_keys_witness :
  exists self d',
    init cursor_example = Ok self /\
    data self = JDict d' /\
    dict_get "nextCursorMark" d' = Some (JStr "AoE").
Proof.
  destruct (init cursor_example) as [self|e] eqn:E; [|discriminate E].
  destruct (init_keeps_other_keys _ self E) as (d' & Hd' & _ & Hget).
  exists self, d'. split; [reflexivity|]. split; [exact Hd'|].
  rewrite Hget; [reflexivity | discriminate | discriminate].
Defined.

(** X4: on a constructed instance [get_cursor] returns the
    [nextCursorMark] of the input response when it has one, whatever its
    value, and raises [SolrResponseError] otherwise. *)
Theorem get_cursor_spec (d : sdict json) (self : SolrResponse) :
  init (JDict d) = Ok self ->
  get_cursor self =
  match dict_get "nextCursorMark" d with
  | Some mark => Ok mark
  | None => Err (SolrResponseError "No Cursor Mark in the Response")
  end.
Proof.
  intro Hinit.
  destruct (init_data_other_keys d self Hinit) as (d' & Hd' & Hget).
  unfold get_cursor. rewrite Hd'. cbn [contains bind getitem]. unfold dict_mem.
  rewrite (Hget "nextCursorMark") by discriminate.
  destruct (dict_get "nextCursorMark" d); reflexivity.
Qed.

Lemma get_cursor_spec_witness :
  (exists self, init cursor_example = Ok self /\ get_cursor self = Ok (JStr "AoE")) /\
  (exists self,
      init empty_example = Ok self /\
      get_cursor self = Err (SolrResponseError "No Cursor Mark in the Response")).
Proof.
  split.
  - destruct (init cursor_example) as [self|e] eqn:E; [|discriminate E].
    exists self. split; [reflexivity|]. exact (get_cursor_spec _ self E).
  - destruct (init empty_example) as [self|e] eqn:E; [|discriminate E].
    exists self. split; [reflexivity|]. exact (get_cursor_spec _ self E).
Defined.

(** ** Field values of the documents *)

Lemma init_docs_mappings (data0 : json) (self : SolrResponse) (x : extracted)
  (l : list json) :
  init data0 = Ok self ->
  extract data0 = Ok x ->
  x_docs x = Some (JList l) ->
  Forall mapping_doc l ->
  docs self = JList (map coerce_doc l) /\ forallb doc_ok l = true.
Proof.
  intros Hinit Hx Hd Hl. apply init_inv in Hinit.
  destruct Hinit as (h & qt & x0 & d0 & d' & _ & _ & Hx0 & Hd0 & Hn & ->).
  rewrite Hx in Hx0. injection Hx0 as <-. rewrite Hd in Hd0. injection Hd0 as <-.
  cbn [normalize_docs] in Hn. rewrite (normalize_all_mappings l Hl) in Hn.
  destruct (forallb doc_ok l); [|discriminate].
  cbn [bind] in Hn. injection Hn as <-. split; reflexivity.
Qed.

Lemma field_values_loop_mappings (field : string) (l : list json) :
  Forall (fun doc => is_dict doc = true) l ->
  field_values_loop field l = Ok (field_values field l).
Proof.
  induction 1 as [|doc l Hdoc Hl IH]; [reflexivity|].
  destruct doc as [| b | n | s | l0 | d]; try discriminate.
  cbn [field_values_loop contains bind field_values flat_map].
  unfold dict_mem. cbn [getitem].
  destruct (dict_get field d) as [v|]; cbn [bind]; rewrite IH; reflexivity.
Qed.

Lemma first_field_loop_mappings (field : string) (l : list json) :
  Forall (fun doc => is_dict doc = true) l ->
  first_field_loop field l =
  match field_values field l with
  | v :: _ => Ok v
  | [] => Err (SolrResponseError "No field in result set")
  end.
Proof.
  induction 1 as [|doc l Hdoc Hl IH]; [reflexivity|].
  destruct doc as [| b | n | s | l0 | d]; try discriminate.
  cbn [first_field_loop keys bind field_values flat_map].
  rewrite existsb_keys. unfold dict_mem. cbn [getitem].
  destruct (dict_get field d) as [v|]; [reflexivity | exact IH].
Qed.

Lemma field_values_coerce (field : string) (l : list json) :
  field_values field (map coerce_doc l) = map coerce (field_values field l).
Proof.
  induction l as [|doc l IH]; [reflexivity|].
  cbn [map field_values flat_map]. fold (field_values field (map coerce_doc l)).
  fold (field_values field l). rewrite map_app, IH. f_equal.
  destruct doc as [| b | n | s | l0 | d]; try reflexivity.
  cbn [coerce_doc]. rewrite dict_get_coerce.
  destruct (dict_get field d); reflexivity.
Qed.

Lemma coerce_doc_is_dict (l : list json) :
  Forall mapping_doc l -> Forall (fun doc => is_dict doc = true) (map coerce_doc l).
Proof.
  intro H. rewrite Forall_forall in *. intros x Hx. apply in_map_iff in Hx.
  destruct Hx as (y & <- & Hy). destruct (H y Hy) as (d & -> & _). reflexivity.
Qed.

(** X5: on the instance built from an ungrouped response whose documents
    are mappings, [get_field_values_as_list] never raises: it returns, in
    document order, the rewritten value of [field] for each document that
    holds the field, and skips the documents that do not. *)
Theorem get_field_values_as_list_spec (d r : sdict json) (l : list json)
  (self : SolrResponse) (field : string) :
  init (JDict d) = Ok self ->
  dict_get "response" d = Some (JDict r) ->
  dict_get "docs" r = Some (JList l) ->
  Forall mapping_doc l ->
  get_field_values_as_list self field = Ok (map coerce (field_values field l)).
Proof.
  intros Hinit Hr Hd Hl.
  destruct (init_docs_mappings _ self _ l Hinit (extract_ungrouped d r _ Hr Hd)
              eq_refl Hl) as [Hdocs _].
  unfold get_field_values_as_list. rewrite Hdocs. cbn [iter bind].
  rewrite field_values_loop_mappings by (apply coerce_doc_is_dict; exact Hl).
  rewrite field_values_coerce. reflexivity.
Qed.

Lemma get_field_values_as_list_spec_witness :
  exists self,
    init cursor_example = Ok self /\
    get_field_values_as_list self "price" = Ok [JInt 15] /\
    get_field_values_as_list self "id" = Ok [JStr "a1"; JStr "b2"].
Proof.
  destruct (init cursor_example) as [self|e] eqn:E; [|discriminate E].
  exists self. split; [reflexivity|].
  assert (Hl : Forall mapping_doc
                 [JDict [("id", JStr "a1"); ("price", JStr "15")];
                  JDict [("id", JStr "b2")]]).
  { repeat constructor; eexists; (split; [reflexivity|]);
      repeat constructor; simpl; intuition discriminate. }
  split.
  - exact (get_field_values_as_list_spec _ _ _ self "price" E eq_refl eq_refl Hl).
  - exact (get_field_values_as_list_spec _ _ _ self "id" E eq_refl eq_refl Hl).
Defined.

(** X6: when the working collection is a list of mappings,
    [get_first_field_values_as_list] returns the first element of what
    [get_field_values_as_list] returns for the same field, and raises
    [SolrResponseError] exactly when that list is empty. *)
Theorem get_first_field_is_head (self : SolrResponse) (l : list json)
  (field : string) :
  docs self = JList l ->
  Forall (fun doc => is_dict doc = true) l ->
  get_first_field_values_as_list self field =
  match get_field_values_as_list self field with
  | Ok (v :: _) => Ok v
  | Ok [] => Err (SolrResponseError "No field in result set")
  | Err e => Err e
  end.
Proof.
  intros Hdocs Hl. unfold get_first_field_values_as_list, get_field_values_as_list.
  rewrite Hdocs. cbn [iter bind].
  rewrite (first_field_loop_mappings field l Hl), (field_values_loop_mappings field l Hl).
  reflexivity.
Qed.

Lemma get_first_field_is_head_witness :
  exists self,
    init cursor_example = Ok self /\
    get_first_field_values_as_list self "price" = Ok (JInt 15) /\
    get_first_field_values_as_list self "size" =
    Err (SolrResponseError "No field in result set").
Proof.
  destruct (init cursor_example) as [self|e] eqn:E; [|discriminate E].
  exists self. split; [reflexivity|].
  assert (Hdocs : docs self =
                  JList [JDict [("id", JStr "a1"); ("price", JInt 15)];
                         JDict [("id", JStr "b2")]]).
  { injection E as <-. reflexivity. }
  assert (Hl : Forall (fun doc => is_dict doc = true)
                 [JDict [("id", JStr "a1"); ("price", JInt 15)];
                  JDict [("id", JStr "b2")]]).
  { repeat constructor. }
  split.
  - rewrite (get_first_field_is_head self _ "price" Hdocs Hl).
    unfold get_field_values_as_list. rewrite Hdocs. reflexivity.
  - rewrite (get_first_field_is_head self _ "size" Hdocs Hl).
    unfold get_field_values_as_list. rewrite Hdocs. reflexivity.
Defined.

(** X7: after a successful construction whose working collection is a list
    of mappings, grouped or not, no field of any document holds a string
    that [str.isdigit] accepts. *)
Theorem init_leaves_no_digit_string (data0 : json) (self : SolrResponse)
  (x : extracted) (l : list json) :
  init data0 = Ok self ->
  extract data0 = Ok x ->
  x_docs x = Some (JList l) ->
  Forall mapping_doc l ->
  exists l',
    docs self = JList l' /\
    forall d' field v,
      In (JDict d') l' -> dict_get field d' = Some v -> is_digit_str v = false.
Proof.
  intros Hinit Hx Hd Hl.
  destruct (init_docs_mappings _ self _ l Hinit Hx Hd Hl) as [Hdocs _].
  exists (map coerce_doc l). split; [exact Hdocs|].
  intros d' field v Hin Hv. apply in_map_iff in Hin.
  destruct Hin as (doc & Hdoc & Hdin). rewrite Forall_forall in Hl.
  destruct (Hl doc Hdin) as (d0 & -> & _). cbn [coerce_doc] in Hdoc.
  injection Hdoc as <-. rewrite dict_get_coerce in Hv.
  destruct (dict_get field d0) as [v0|]; [|discriminate].
  cbn [option_map] in Hv. injection Hv as <-. apply coerce_not_digit_str.
Qed.

Lemma init_leaves_no_digit_string_witness :
  exists self l',
    init grouped_example = Ok self /\
    docs self = JList l' /\
    forall d' field v,
      In (JDict d') l' -> dict_get field d' = Some v -> is_digit_str v = false.
Proof.
  destruct (init grouped_example) as [self|e] eqn:E; [|discriminate E].
  destruct (extract grouped_example) as [x|e] eqn:Ex; [|discriminate Ex].
  destruct (init_leaves_no_digit_string grouped_example self x
              [JDict [("groupValue", JStr "44")]] E Ex) as (l' & Hdocs & Hno).
  - injection Ex as <-. reflexivity.
  - repeat constructor. eexists. split; [reflexivity|].
    repeat constructor; simpl; intuition.
  - exists self, l'. split; [reflexivity|]. split; [exact Hdocs | exact Hno].
Defined.

(** ** First calls of [get_facets] and [get_facets_ranges] *)

(** X8: on an instance on which [get_facets] was not called before, the
    call raises [SolrResponseError] when [facet_counts] is absent or not a
    mapping, and returns the empty mapping, raising nothing, when
    [facet_counts] is a mapping in which [facet_fields] is absent or not a
    mapping; in both cases the empty mapping is what the instance then
    caches. *)
Theorem get_facets_first_call (self : SolrResponse) (d : sdict json) :
  facets self = None ->
  data self = JDict d ->
  ((dict_get "facet_counts" d = None \/
    exists v, dict_get "facet_counts" d = Some v /\ is_dict v = false) ->
   get_facets self =
   (with_facets self [],
    Err (SolrResponseError "No Facet Information in the Response"))) /\
  (forall fc,
      dict_get "facet_counts" d = Some (JDict fc) ->
      (dict_get "facet_fields" fc = None \/
       exists v, dict_get "facet_fields" fc = Some v /\ is_dict v = false) ->
      get_facets self = (with_facets self [], Ok [])).
Proof.
  intros Hf Hd. unfold get_facets. rewrite Hf. cbv zeta.
  change (data (with_facets self [])) with (data self).
  rewrite Hd, mapping_at_cases. split.
  - intros [H|(v & H & Hv)]; rewrite H; [reflexivity|]. rewrite Hv. reflexivity.
  - intros fc Hfc H. rewrite Hfc. cbn [is_dict]. rewrite mapping_at_cases.
    destruct H as [H|(v & H & Hv)]; rewrite H; [reflexivity|].
    rewrite Hv. reflexivity.
Qed.

Lemma get_facets_first_call_witness :
  (exists self,
      init empty_example = Ok self /\
      snd (get_facets self) =
      Err (SolrResponseError "No Facet Information in the Response")) /\
  (exists self,
      init facet_counts_only_example = Ok self /\
      snd (get_facets self) = Ok []).
Proof.
  split.
  - destruct (init empty_example) as [self|e] eqn:E; [|discriminate E].
    exists self. split; [reflexivity|].
    rewrite (proj1 (get_facets_first_call self
                      [("responseHeader", JDict [("status", JInt 0); ("QTime", JInt 1)])]
                      ltac:(injection E as <-; reflexivity)
                      ltac:(injection E as <-; reflexivity))).
    + reflexivity.
    + left. reflexivity.
  - destruct (init facet_counts_only_example) as [self|e] eqn:E; [|discriminate E].
    exists self. split; [reflexivity|].
    rewrite (proj2 (get_facets_first_call self
                      [("responseHeader", JDict [("status", JInt 0); ("QTime", JInt 1)]);
                       ("response",
                        JDict [("numFound", JInt 0); ("start", JInt 0); ("docs", JList [])]);
                       ("facet_counts", JDict [("facet_queries", JDict [])])]
                      ltac:(injection E as <-; reflexivity)
                      ltac:(injection E as <-; reflexivity))
               [("facet_queries", JDict [])]).
    + reflexivity.
    + reflexivity.
    + left. reflexivity.
Defined.

Lemma ranges_loop_good (fr : json) (fields : list string) :
  forall acc rs e,
    ranges_loop fr fields acc = (rs, e) ->
    ranges_good fr acc -> ranges_good fr rs.
Proof.
  induction fields as [|f tl IH]; cbn [ranges_loop]; intros acc rs e H Hg.
  - injection H as <- _. exact Hg.
  - destruct (getitem fr (JStr f)) as [r|e0] eqn:Er; cbn [bind] in H;
      [|injection H as <- _; exact Hg].
    destruct (getitem r (JStr "counts")) as [c|e0] eqn:Ec; cbn [bind] in H;
      [|injection H as <- _; exact Hg].
    destruct c as [| b | n | s | l | d]; cbn [is_list] in H;
      try (apply (IH _ _ _ H); exact Hg).
    destruct (decode_flat (JList l)) as [od|e0] eqn:Eo; cbn [bind] in H;
      [|injection H as <- _; exact Hg].
    apply (IH _ _ _ H). intros f' od' Hf'. rewrite dict_get_set in Hf'.
    destruct (String.eqb_spec f' f) as [->|_].
    + injection Hf' as <-. exists r, l. repeat split; assumption.
    + apply Hg. exact Hf'.
Qed.

Lemma ranges_loop_mem (fr : json) (fields : list string) :
  forall acc rs,
    ranges_loop fr fields acc = (rs, None) ->
    forall f,
      (In f fields /\
       exists r l, getitem fr (JStr f) = Ok r /\ getitem r (JStr "counts") = Ok (JList l)) \/
      dict_mem f acc = true ->
      dict_mem f rs = true.
Proof.
  induction fields as [|f0 tl IH]; cbn [ranges_loop]; intros acc rs H f Hf.
  - injection H as <-. destruct Hf as [[[] _]|Hf]. exact Hf.
  - destruct (getitem fr (JStr f0)) as [r|e0] eqn:Er; cbn [bind] in H; [|discriminate].
    destruct (getitem r (JStr "counts")) as [c|e0] eqn:Ec; cbn [bind] in H; [|discriminate].
    destruct (is_list c) eqn:Elist.
    + destruct (decode_flat c) as [od|e0]; cbn [bind] in H; [|discriminate].
      apply (IH _ _ H). destruct Hf as [[[<-|Hin] Hex]|Hf].
      * right. unfold dict_mem. rewrite dict_get_set, String.eqb_refl. reflexivity.
      * left. split; assumption.
      * right. unfold dict_mem in *. rewrite dict_get_set.
        destruct (String.eqb f f0); [reflexivity | exact Hf].
    + apply (IH _ _ H). destruct Hf as [[[<-|Hin] Hex]|Hf].
      * exfalso. destruct Hex as (r' & l & Hr' & Hl).
        rewrite Er in Hr'. injection Hr' as <-. rewrite Ec in Hl. injection Hl as ->.
        discriminate Elist.
      * left. split; assumption.
      * right. exact Hf.
Qed.

(** X11: when the first call of [get_facets_ranges] returns a mapping, a
    range field whose [counts] is a list is stored as the ordered mapping
    of its alternating pairs (the last value under a key wins, keys in
    order of first occurrence), and a range field whose [counts] is
    anything else is left out of the result without an error. *)
Theorem get_facets_ranges_decodes (self : SolrResponse) (fc fr : sdict json)
  (rs : sdict (odict json)) (field : string) (r c : json) :
  facet_ranges self = None ->
  getitem (data self) (JStr "facet_counts") = Ok (JDict fc) ->
  dict_get "facet_ranges" fc = Some (JDict fr) ->
  snd (get_facets_ranges self) = Ok (Some rs) ->
  dict_get field fr = Some r ->
  getitem r (JStr "counts") = Ok c ->
  match c with
  | JList l =>
      exists od,
        dict_get field rs = Some od /\
        (forall k, od_get k od = last_seen k (zip (evens l) (odds l))) /\
        map fst od = first_seen (map fst (zip (evens l) (odds l)))
  | _ => dict_get field rs = None
  end.
Proof.
  intros Hf Hfc Hfr Hget Hr Hc.
  unfold get_facets_ranges in Hget. rewrite Hf in Hget. cbv zeta in Hget.
  change (data (with_facet_ranges self [])) with (data self) in Hget.
  rewrite (mapping_at_dict _ _ _ Hfc) in Hget.
  rewrite (mapping_at_dict (JDict fc) "facet_ranges" fr) in Hget
    by (cbn [getitem]; rewrite Hfr; reflexivity).
  cbn [keys] in Hget.
  destruct (ranges_loop (JDict fr) (dict_keys fr) []) as [rs' [e|]] eqn:Eloop;
    cbn [snd] in Hget; [discriminate|].
  injection Hget as ->.
  pose proof (ranges_loop_good _ _ _ _ _ Eloop (fun _ _ F => ltac:(discriminate F)))
    as Hgood.
  assert (Hnot : is_list c = false -> dict_get field rs = None).
  { intro Hl. destruct (dict_get field rs) as [od|] eqn:Eod; [|reflexivity].
    destruct (Hgood _ _ Eod) as (r' & l & Hr' & Hl' & _).
    cbn [getitem] in Hr'. rewrite Hr in Hr'. injection Hr' as <-.
    rewrite Hc in Hl'. injection Hl' as ->. discriminate Hl. }
  destruct c as [| b | n | s | l | d0]; try (apply Hnot; reflexivity).
  assert (Hmem : dict_mem field rs = true).
  { apply (ranges_loop_mem _ _ _ _ Eloop). left. split.
    - exact (dict_get_key_In _ _ _ Hr).
    - exists r, l. split; [cbn [getitem]; rewrite Hr; reflexivity | exact Hc]. }
  unfold dict_mem in Hmem.
  destruct (dict_get field rs) as [od|] eqn:Eod; [|discriminate].
  destruct (Hgood _ _ Eod) as (r' & l' & Hr' & Hl' & Hdec).
  cbn [getitem] in Hr'. rewrite Hr in Hr'. injection Hr' as <-.
  rewrite Hc in Hl'. injection Hl' as <-.
  unfold decode_flat in Hdec. cbn [slice_elems bind] in Hdec.
  destruct (od_of_pairs_spec _ _ _ Hdec) as [Hlast Hfirst].
  exists od. split; [reflexivity|]. split; [exact Hlast | exact Hfirst].
Qed.

Lemma get_facets_ranges_decodes_witness :
  exists self rs,
    init ranges_example = Ok self /\
    snd (get_facets_ranges self) = Ok (Some rs) /\
    dict_get "weight" rs = None /\
    exists od,
      dict_get "price" rs = Some od /\
      map fst od = [JStr "0"; JStr "10"; JStr "20"].
Proof.
  destruct (init ranges_example) as [self|e] eqn:E; [|discriminate E].
  destruct (snd (get_facets_ranges self)) as [[rs|]|e] eqn:Eg;
    try (injection E as <-; discriminate Eg).
  exists self, rs. split; [reflexivity|]. split; [exact Eg|].
  pose (fr := [("price",
                JDict [("counts",
                        JList [JStr "0"; JInt 3; JStr "10"; JInt 5; JStr "20"; JInt 7]);
                       ("gap", JInt 10)]);
               ("weight", JDict [("counts", JNull)])]).
  assert (Hf : facet_ranges self = None) by (injection E as <-; reflexivity).
  assert (Hfc : getitem (data self) (JStr "facet_counts") =
                Ok (JDict [("facet_ranges", JDict fr)]))
    by (injection E as <-; reflexivity).
  split.
  - exact (get_facets_ranges_decodes self _ fr rs "weight" _ JNull
             Hf Hfc eq_refl Eg eq_refl eq_refl).
  - destruct (get_facets_ranges_decodes self _ fr rs "price" _
                (JList [JStr "0"; JInt 3; JStr "10"; JInt 5; JStr "20"; JInt 7])
                Hf Hfc eq_refl Eg eq_refl eq_refl) as (od & Hod & _ & Hkeys).
    exists od. split; [exact Hod | exact Hkeys].
Defined.

(** ** Keys and values of a decoded facet field *)

Lemma key_eqb_refl (k : json) : hashable k = true -> key_eqb k k = true.
Proof.
  destruct k; cbn [hashable key_eqb]; try discriminate; intros _.
  - reflexivity.
  - destruct b; reflexivity.
  - apply Z.eqb_refl.
  - apply String.eqb_refl.
Qed.

Lemma od_get_key_eqb {V : Type} (a b : json) (d : odict V) :
  key_eqb a b = true -> od_get a d = od_get b d.
Proof.
  intro H. induction d as [|[k v] d IH]; cbn [od_get]; [reflexivity|].
  rewrite (key_eqb_sym a k), (key_eqb_sym b k), (key_eqb_trans a b k H), IH.
  reflexivity.
Qed.

Lemma od_put_wf {V : Type} (k : json) (v : V) (d : odict V) :
  hashable k = true -> od_wf d -> od_wf (od_put k v d).
Proof.
  intro Hk. induction d as [|[k0 v0] d IH]; cbn [od_put od_wf].
  - intros _. cbn [od_get]. auto.
  - intros (H0 & Hnone & Hd). destruct (key_eqb k k0) eqn:E; cbn [od_wf].
    + auto.
    + split; [exact H0|]. split; [|apply IH; exact Hd].
      rewrite od_get_put, key_eqb_sym, E. exact Hnone.
Qed.

Lemma od_of_pairs_wf {V : Type} (ps : list (json * V)) :
  forall acc od, od_of_pairs acc ps = Ok od -> od_wf acc -> od_wf od.
Proof.
  induction ps as [|[k v] ps IH]; cbn [od_of_pairs]; intros acc od H Hacc.
  - injection H as <-. exact Hacc.
  - bind_inv H. unfold od_set in E. destruct (hashable k) eqn:Hk; [|discriminate].
    injection E as <-. apply (IH _ _ H). apply od_put_wf; assumption.
Qed.

Lemma decode_flat_wf (l : json) (od : odict json) :
  decode_flat l = Ok od -> od_wf od.
Proof.
  unfold decode_flat. intro H. bind_inv H. bind_inv H.
  apply (od_of_pairs_wf _ _ _ H). exact I.
Qed.

(** In a mapping with distinct keys every stored pair is what a lookup of
    its key finds. *)
Lemma od_wf_lookup {V : Type} (d : odict V) :
  od_wf d -> forall k v, In (k, v) d -> od_get k d = Some v.
Proof.
  induction d as [|[k0 v0] d IH]; cbn [od_wf]; intros H k v Hin; [destruct Hin|].
  destruct H as (H0 & Hnone & Hd). cbn [od_get]. destruct Hin as [Heq|Hin].
  - injection Heq as -> ->. rewrite (key_eqb_refl k H0). reflexivity.
  - destruct (key_eqb k k0) eqn:E.
    + rewrite <- (od_get_key_eqb _ _ d E), (IH Hd k v Hin) in Hnone. discriminate.
    + apply IH; assumption.
Qed.

Lemma mapM_lookup {V : Type} (d d' : odict V) :
  (forall k v, In (k, v) d' -> od_get k d = Some v) ->
  mapM (fun k => match od_get k d with Some v => Ok v | None => Err KeyError end)
       (map fst d') = Ok (map snd d').
Proof.
  induction d' as [|[k v] d' IH]; intro H; [reflexivity|].
  cbn [map fst snd mapM]. rewrite (H k v (or_introl eq_refl)). cbn [bind].
  rewrite IH by (intros k' v' Hin; apply H; right; exact Hin). reflexivity.
Qed.

Lemma get_facets_first_wf (self : SolrResponse) (fs : sdict (odict json)) :
  facets self = None ->
  snd (get_facets self) = Ok fs ->
  forall f od, dict_get f fs = Some od -> od_wf od.
Proof.
  intros Hf H f od Hod. unfold get_facets in H. rewrite Hf in H. cbv zeta in H.
  destruct (mapping_at _ "facet_counts") as [[fc|]|e]; cbn [snd] in H; try discriminate.
  destruct (mapping_at fc "facet_fields") as [[ff|]|e]; cbn [snd] in H; try discriminate.
  - destruct (keys ff) as [ks|e]; cbn [snd] in H; try discriminate.
    destruct (facets_loop ff ks []) as [fs' [e|]] eqn:Eloop; cbn [snd] in H;
      try discriminate.
    injection H as ->.
    destruct (facets_loop_good _ _ _ _ _ Eloop (fun _ _ F => ltac:(discriminate F))
                _ _ Hod) as (l & _ & Hdec).
    exact (decode_flat_wf _ _ Hdec).
  - injection H as <-. discriminate Hod.
Qed.

(** X12: for a field of the mapping that a first call of [get_facets]
    returns, [get_facet_keys_as_list] and [get_facet_values_as_list] return
    sequences of equal length in matching order: the value at a position is
    what the decoded mapping binds to the key at that position, and no key
    occurs twice. *)
Theorem facet_keys_values_aligned (self : SolrResponse)
  (fs : sdict (odict json)) (field : string) (od : odict json) :
  facets self = None ->
  snd (get_facets self) = Ok fs ->
  dict_get field fs = Some od ->
  snd (get_facet_keys_as_list self field) = Ok (KKeys (map fst od)) /\
  snd (get_facet_values_as_list self field) = Ok (map snd od) /\
  List.length (map fst od) = List.length (map snd od) /\
  od_wf od /\
  forall k v, In (k, v) od -> od_get k od = Some v.
Proof.
  intros Hf H Hod.
  pose proof (get_facets_first_wf self fs Hf H field od Hod) as Hwf.
  unfold get_facet_keys_as_list, get_facet_values_as_list.
  destruct (get_facets self) as [s r]. cbn [snd] in H. subst r.
  cbn [facets_eq_int]. rewrite Hod. cbn [snd].
  split; [reflexivity|]. split; [apply mapM_lookup; apply od_wf_lookup; exact Hwf|].
  split; [rewrite !length_map; reflexivity|].
  split; [exact Hwf | apply od_wf_lookup; exact Hwf].
Qed.

Lemma facet_keys_values_aligned_witness :
  exists self,
    init facets_example = Ok self /\
    snd (get_facet_keys_as_list self "color") = Ok (KKeys [JStr "red"; JStr "blue"]) /\
    snd (get_facet_values_as_list self "color") = Ok [JInt 1; JInt 5].
Proof.
  destruct (init facets_example) as [self|e] eqn:E; [|discriminate E].
  exists self. split; [reflexivity|].
  destruct (facet_keys_values_aligned self
              [("color", [(JStr "red", JInt 1); (JStr "blue", JInt 5)])]
              "color" [(JStr "red", JInt 1); (JStr "blue", JInt 5)])
    as (Hk & Hv & _).
  - injection E as <-. reflexivity.
  - injection E as <-. reflexivity.
  - reflexivity.
  - split; [exact Hk | exact Hv].
Defined.

(** ** What [_rec_subfield] makes of a list *)

Lemma rec_sets_ext (rec1 rec2 : json -> option (result (odict pyval)))
  (c : json) (sets : list json) :
  (forall s p, In s sets -> getitem s (JStr "pivot") = Ok p -> rec1 p = rec2 p) ->
  forall out, rec_sets rec1 c sets out = rec_sets rec2 c sets out.
Proof.
  induction sets as [|s tl IH]; cbn [rec_sets]; intros H out; [reflexivity|].
  assert (IH' : forall out', rec_sets rec1 c tl out' = rec_sets rec2 c tl out').
  { apply IH. intros s' p Hs'. apply H. right. exact Hs'. }
  destruct (keys s) as [ks|e]; [|reflexivity].
  destruct (existsb (String.eqb "pivot") ks).
  - destruct (getitem s (JStr "pivot")) as [p|e] eqn:Ep; [|reflexivity].
    rewrite (H s p (or_introl eq_refl) Ep).
    destruct (rec2 p) as [[sub|e]|]; try reflexivity.
    destruct (bind _ _); [apply IH' | reflexivity].
  - destruct (bind _ _); [apply IH' | reflexivity].
Qed.

(** Lines 167-172 as an equation over the recursive calls. *)
Lemma rec_subfield_list (l : list json) :
  Some (_rec_subfield (JList l)) =
  rec_sets (fun p => Some (_rec_subfield p)) (JList l) l [].
Proof.
  rewrite <- (rec_subfield_fuel_eq (json_size (JList l)) (JList l) (le_n _)).
  destruct (json_size (JList l)) as [|n] eqn:En; [cbn in En; lia|].
  cbn [rec_subfield_fuel]. apply rec_sets_ext.
  intros s p Hs Hp. apply rec_subfield_fuel_eq.
  destruct (getitem_str_dict _ _ _ Hp) as (d & -> & Hd).
  apply json_size_dict_get in Hd. apply json_size_In in Hs. lia.
Qed.

Lemma rec_sets_leaves (l0 sets : list json) :
  forall out r,
    rec_sets (fun p => Some (_rec_subfield p)) (JList l0) sets out = Some (Ok r) ->
    exists ps, Forall2 leaf_entry sets ps /\ od_of_pairs out ps = Ok r.
Proof.
  induction sets as [|s tl IH]; cbn [rec_sets]; intros out r H.
  - injection H as <-. exists []. split; [constructor | reflexivity].
  - destruct s as [| b | n | s | l | d]; cbn [keys] in H; try discriminate.
    rewrite existsb_keys in H. destruct (dict_mem "pivot" d) eqn:Em.
    + exfalso. cbn [getitem] in H. unfold dict_mem in Em.
      destruct (dict_get "pivot" d) as [p|]; [|discriminate].
      destruct (_rec_subfield p); discriminate.
    + cbn [getitem] in H.
      destruct (dict_get "count" d) as [c|] eqn:Ec; cbn [bind] in H; [|discriminate].
      destruct (dict_get "value" d) as [k|] eqn:Ek; cbn [bind] in H; [|discriminate].
      destruct (od_set k (PJson c) out) as [out'|e] eqn:Es; [|discriminate].
      destruct (IH _ _ H) as (ps & Hps & Hod).
      exists ((k, PJson c) :: ps). split.
      * constructor; [|exact Hps]. exists d, c. repeat split; assumption.
      * cbn [od_of_pairs]. rewrite Es. exact Hod.
Qed.

Lemma rec_sets_of_leaves (l0 sets : list json) (ps : list (json * pyval)) :
  Forall2 leaf_entry sets ps ->
  forall out,
    rec_sets (fun p => Some (_rec_subfield p)) (JList l0) sets out =
    Some (od_of_pairs out ps).
Proof.
  induction 1 as [|s p tl ps' Hs Htl IH]; intro out; [reflexivity|].
  destruct Hs as (d & c & -> & Hm & Hc & Hv & Hp). destruct p as [k v].
  cbn [fst snd] in Hv, Hp. subst v.
  cbn [rec_sets keys]. rewrite existsb_keys, Hm. cbn [getitem].
  rewrite Hc, Hv. cbn [bind od_of_pairs].
  destruct (od_set k (PJson c) out) as [out'|e]; [apply IH | reflexivity].
Qed.

(** X13: [_rec_subfield] decodes a list exactly when every entry is a
    mapping without [pivot] that has a [count] and a hashable [value]; the
    result is then the flat mapping from each [value] to its [count],
    inserted in order.  An entry with a [pivot] anywhere in a list makes
    the call raise: a list never decodes to a nested mapping. *)
Theorem rec_subfield_list_flat (l : list json) :
  (forall out,
      _rec_subfield (JList l) = Ok out <->
      exists ps, Forall2 leaf_entry l ps /\ od_of_pairs [] ps = Ok out) /\
  (forall d,
      In (JDict d) l -> dict_mem "pivot" d = true ->
      is_ok (_rec_subfield (JList l)) = false).
Proof.
  split.
  - intro out. split.
    + intro H. apply (rec_sets_leaves l l [] out).
      rewrite <- rec_subfield_list, H. reflexivity.
    + intros (ps & Hps & Hod).
      pose proof (rec_subfield_list l) as E.
      rewrite (rec_sets_of_leaves l l ps Hps) in E. injection E as E.
      rewrite E. exact Hod.
  - intros d Hin Hm.
    destruct (_rec_subfield (JList l)) as [out|e] eqn:E; [|reflexivity].
    exfalso.
    destruct (rec_sets_leaves l l [] out) as (ps & Hps & _).
    { rewrite <- rec_subfield_list, E. reflexivity. }
    clear E. induction Hps as [|s p tl ps' Hs Htl IH]; [destruct Hin|].
    destruct Hin as [->|Hin]; [|exact (IH Hin)].
    destruct Hs as (d' & c & Heq & Hm' & _). injection Heq as <-. congruence.
Qed.

Lemma rec_subfield_list_flat_witness :
  _rec_subfield (JList [JDict [("value", JStr "X"); ("count", JInt 1)];
                        JDict [("value", JStr "Y"); ("count", JInt 4)]]) =
  Ok [(JStr "X", PJson (JInt 1)); (JStr "Y", PJson (JInt 4))] /\
  is_ok (_rec_subfield pivot_entries_example) = false.
Proof.
  split.
  - apply (proj1 (rec_subfield_list_flat _)).
    exists [(JStr "X", PJson (JInt 1)); (JStr "Y", PJson (JInt 4))]. split.
    + constructor; [|constructor; [|constructor]].
      * eexists. eexists. repeat split; reflexivity.
      * eexists. eexists. repeat split; reflexivity.
    + reflexivity.
  - apply (proj2 (rec_subfield_list_flat _)
             [("value", JStr "A"); ("count", JInt 2);
              ("pivot",
               JList [JDict [("value", JStr "X"); ("count", JInt 1)];
                      JDict [("value", JStr "Y"); ("count", JInt 1)]])]).
    + left. reflexivity.
    + reflexivity.
Defined.

(** X14: a top-level pivot entry whose [pivot] is a list of leaf entries
    with hashable values, and whose own [value] is hashable, decodes to the
    single binding of its [value] to the flat mapping of the leaves; its
    own [count] is not kept. *)
Theorem rec_subfield_two_levels (d : sdict json) (leaves : list json)
  (ps : list (json * pyval)) (k : json) :
  dict_get "pivot" d = Some (JList leaves) ->
  Forall2 leaf_entry leaves ps ->
  forallb hashable (map fst ps) = true ->
  dict_get "value" d = Some k ->
  hashable k = true ->
  exists sub,
    od_of_pairs [] ps = Ok sub /\
    _rec_subfield (JDict d) = Ok [(k, PDict sub)].
Proof.
  intros Hp Hleaves Hhash Hv Hk.
  pose proof (od_of_pairs_total ps Hhash []) as Hok.
  destruct (od_of_pairs [] ps) as [sub|e] eqn:Esub; [|discriminate].
  exists sub. split; [reflexivity|].
  rewrite rec_subfield_dict, Hp.
  pose proof (rec_subfield_list leaves) as E.
  rewrite (rec_sets_of_leaves leaves leaves ps Hleaves), Esub in E.
  injection E as ->. cbn [bind getitem]. rewrite Hv. cbn [bind].
  unfold od_set. rewrite Hk. reflexivity.
Qed.

Lemma rec_subfield_two_levels_witness :
  _rec_subfield
    (JDict [("value", JStr "A"); ("count", JInt 2);
            ("pivot",
             JList [JDict [("value", JStr "X"); ("count", JInt 1)];
                    JDict [("value", JStr "Y"); ("count", JInt 1)]])]) =
  Ok [(JStr "A", PDict [(JStr "X", PJson (JInt 1)); (JStr "Y", PJson (JInt 1))])].
Proof.
  destruct (rec_subfield_two_levels
              [("value", JStr "A"); ("count", JInt 2);
               ("pivot",
                JList [JDict [("value", JStr "X"); ("count", JInt 1)];
                       JDict [("value", JStr "Y"); ("count", JInt 1)]])]
              [JDict [("value", JStr "X"); ("count", JInt 1)];
               JDict [("value", JStr "Y"); ("count", JInt 1)]]
              [(JStr "X", PJson (JInt 1)); (JStr "Y", PJson (JInt 1))]
              (JStr "A") eq_refl) as (sub & Hsub & Hrec).
  - constructor; [|constructor; [|constructor]].
    + eexists. eexists. repeat split; reflexivity.
    + eexists. eexists. repeat split; reflexivity.
  - reflexivity.
  - reflexivity.
  - reflexivity.
  - cbn in Hsub. injection Hsub as <-. exact Hrec.
Defined.

(** ** [get_facet_pivot] on responses without nested pivots *)

(** X15: on an instance on which [get_facet_pivot] was not called before
    and whose response has no [facet_counts], the call raises nothing and
    returns [None], the next call returns the empty mapping; when
    [facet_counts] is a mapping without [facet_pivot] the call raises
    [KeyError]. *)
Theorem get_facet_pivot_first_call (self : SolrResponse) (d : sdict json) :
  facet_pivot self = None ->
  data self = JDict d ->
  (dict_get "facet_counts" d = None ->
   get_facet_pivot self = (with_facet_pivot self [], Ok None) /\
   snd (get_facet_pivot (fst (get_facet_pivot self))) = Ok (Some [])) /\
  (forall fc,
      dict_get "facet_counts" d = Some (JDict fc) ->
      dict_get "facet_pivot" fc = None ->
      get_facet_pivot self = (with_facet_pivot self [], Err KeyError)).
Proof.
  intros Hf Hd.
  assert (E : forall b, dict_mem "facet_counts" d = b ->
              get_facet_pivot self =
              if b then
                match (fc <- getitem (JDict d) (JStr "facet_counts") ;;
                       pivots <- getitem fc (JStr "facet_pivot") ;;
                       fieldsets <- iter pivots ;;
                       Ok (pivots, fieldsets)) with
                | Err e => (with_facet_pivot self [], Err e)
                | Ok (pivots, fieldsets) =>
                    match pivot_loop pivots fieldsets [] with
                    | (fp, None) =>
                        (with_facet_pivot (with_facet_pivot self []) fp, Ok (Some fp))
                    | (fp, Some e) =>
                        (with_facet_pivot (with_facet_pivot self []) fp, Err e)
                    end
                end
              else (with_facet_pivot self [], Ok None)).
  { intros b Hb. unfold get_facet_pivot. rewrite Hf. cbv zeta.
    change (data (with_facet_pivot self [])) with (data self).
    rewrite Hd. cbn [keys]. rewrite existsb_keys, Hb. reflexivity. }
  split.
  - intro Hnone. rewrite (E false) by (unfold dict_mem; rewrite Hnone; reflexivity).
    split; reflexivity.
  - intros fc Hfc Hp.
    rewrite (E true) by (unfold dict_mem; rewrite Hfc; reflexivity).
    cbn [getitem]. rewrite Hfc. cbn [bind getitem]. rewrite Hp. reflexivity.
Qed.

Lemma get_facet_pivot_first_call_witness :
  (exists self,
      init empty_example = Ok self /\
      snd (get_facet_pivot self) = Ok None /\
      snd (get_facet_pivot (fst (get_facet_pivot self))) = Ok (Some [])) /\
  (exists self,
      init facet_counts_only_example = Ok self /\
      snd (get_facet_pivot self) = Err KeyError).
Proof.
  split.
  - destruct (init empty_example) as [self|e] eqn:E; [|discriminate E].
    exists self. split; [reflexivity|].
    destruct (proj1 (get_facet_pivot_first_call self
                       [("responseHeader", JDict [("status", JInt 0); ("QTime", JInt 1)])]
                       ltac:(injection E as <-; reflexivity)
                       ltac:(injection E as <-; reflexivity)) eq_refl) as [H1 H2].
    split; [rewrite H1; reflexivity | exact H2].
  - destruct (init facet_counts_only_example) as [self|e] eqn:E; [|discriminate E].
    exists self. split; [reflexivity|].
    rewrite (proj2 (get_facet_pivot_first_call self
                      [("responseHeader", JDict [("status", JInt 0); ("QTime", JInt 1)]);
                       ("response",
                        JDict [("numFound", JInt 0); ("start", JInt 0); ("docs", JList [])]);
                       ("facet_counts", JDict [("facet_queries", JDict [])])]
                      ltac:(injection E as <-; reflexivity)
                      ltac:(injection E as <-; reflexivity))
               [("facet_queries", JDict [])] eq_refl eq_refl).
    reflexivity.
Defined.

Lemma od_put_same {V : Type} (k : json) (v : V) (d : odict V) :
  od_get k d = Some v -> od_put k v d = d.
Proof.
  induction d as [|[k0 v0] d IH]; cbn [od_get od_put]; [discriminate|].
  destruct (key_eqb k k0).
  - intro H. injection H as ->. reflexivity.
  - intro H. rewrite (IH H). reflexivity.
Qed.

Lemma pivot_entries_leaves (fieldset : json) (es : list json)
  (acc : odict (odict pyval)) :
  Forall (fun e => exists d, e = JDict d /\ dict_get "pivot" d = None) es ->
  od_get fieldset acc <> None ->
  pivot_entries fieldset es acc = (acc, None).
Proof.
  induction 1 as [|e es He Hes IH]; intro Hacc; [reflexivity|].
  destruct He as (d & -> & Hp). cbn [pivot_entries].
  rewrite rec_subfield_dict, Hp. cbn [bind].
  destruct (od_get fieldset acc) as [cur|] eqn:Ecur; [|contradiction].
  cbn [od_update fold_left]. rewrite (od_put_same _ _ _ Ecur).
  apply IH. congruence.
Qed.

Lemma pivot_loop_leaves (pv : sdict json) (fs : list string) :
  (forall f, In f fs ->
     exists es,
       dict_get f pv = Some (JList es) /\
       Forall (fun e => exists d, e = JDict d /\ dict_get "pivot" d = None) es) ->
  forall acc,
    (forall k v, od_get k acc = Some v -> v = []) ->
    exists fp,
      pivot_loop (JDict pv) (map JStr fs) acc = (fp, None) /\
      (forall k v, od_get k fp = Some v -> v = []) /\
      (forall f, In f fs \/ od_get (JStr f) acc <> None -> od_get (JStr f) fp <> None).
Proof.
  induction fs as [|f tl IH]; intros H acc Hacc.
  - exists acc. split; [reflexivity|]. split; [exact Hacc|]. intros f [[]|Hf]. exact Hf.
  - destruct (H f (or_introl eq_refl)) as (es & Hes & Hleaf).
    cbn [map pivot_loop]. unfold od_set. cbn [hashable getitem].
    rewrite Hes. cbn [bind iter].
    rewrite (pivot_entries_leaves (JStr f) es _ Hleaf)
      by (rewrite od_get_put, (key_eqb_refl (JStr f) eq_refl); discriminate).
    destruct (IH (fun f' Hf' => H f' (or_intror Hf')) (od_put (JStr f) [] acc))
      as (fp & Hloop & Hempty & Hmem).
    { intros k v. rewrite od_get_put. destruct (key_eqb k (JStr f)).
      - intro E. injection E as <-. reflexivity.
      - apply Hacc. }
    exists fp. split; [exact Hloop|]. split; [exact Hempty|].
    intros f' Hf'. apply Hmem. rewrite od_get_put.
    destruct (key_eqb (JStr f') (JStr f)) eqn:Ek; [right; discriminate|].
    destruct Hf' as [[->|Hin]|Hf'].
    + rewrite (key_eqb_refl (JStr f') eq_refl) in Ek. discriminate.
    + left. exact Hin.
    + right. exact Hf'.
Qed.

(** X16: when no entry of [facet_pivot] has a [pivot] key, as for a pivot
    over a single field, the first call of [get_facet_pivot] succeeds and
    binds every field-spec to the empty mapping: no value and no count of
    the response is in the result. *)
Theorem get_facet_pivot_without_nesting (self : SolrResponse)
  (fc pv : sdict json) :
  facet_pivot self = None ->
  getitem (data self) (JStr "facet_counts") = Ok (JDict fc) ->
  dict_get "facet_pivot" fc = Some (JDict pv) ->
  (forall f entries,
      dict_get f pv = Some entries ->
      exists es,
        entries = JList es /\
        Forall (fun e => exists d, e = JDict d /\ dict_get "pivot" d = None) es) ->
  exists fp,
    snd (get_facet_pivot self) = Ok (Some fp) /\
    (forall k v, od_get k fp = Some v -> v = []) /\
    (forall f, dict_mem f pv = true -> od_get (JStr f) fp = Some []).
Proof.
  intros Hf Hfc Hp Hleaf.
  destruct (getitem_str_dict _ _ _ Hfc) as (d & Hd & Hdfc).
  destruct (pivot_loop_leaves pv (dict_keys pv)) with (acc := @nil (json * odict pyval))
    as (fp & Hloop & Hempty & Hmem).
  { intros f Hin.
    assert (Hex : exists v, dict_get f pv = Some v).
    { clear - Hin. induction pv as [|[k v] pv IH]; cbn in *; [contradiction|].
      destruct (String.eqb_spec f k) as [->|Hne]; [eexists; reflexivity|].
      destruct Hin as [Hk|Hin]; [congruence | exact (IH Hin)]. }
    destruct Hex as (v & Hv). destruct (Hleaf f v Hv) as (es & -> & Hes).
    exists es. split; assumption. }
  { intros k v F. discriminate F. }
  exists fp. split.
  - unfold get_facet_pivot. rewrite Hf. cbv zeta.
    change (data (with_facet_pivot self [])) with (data self).
    rewrite Hd. cbn [keys]. rewrite existsb_keys, (dict_get_mem _ _ _ Hdfc).
    cbn [getitem]. rewrite Hdfc. cbn [bind getitem]. rewrite Hp. cbn [bind iter].
    rewrite Hloop. reflexivity.
  - split; [exact Hempty|]. intros f Hm.
    assert (Hin : In f (dict_keys pv)).
    { unfold dict_mem in Hm. destruct (dict_get f pv) eqn:E; [|discriminate].
      exact (dict_get_key_In _ _ _ E). }
    pose proof (Hmem f (or_introl Hin)) as Hne.
    destruct (od_get (JStr f) fp) as [v|] eqn:E; [|contradiction].
    rewrite (Hempty _ _ E). reflexivity.
Qed.

Lemma get_facet_pivot_without_nesting_witness :
  exists self fp,
    init pivot_single_example = Ok self /\
    snd (get_facet_pivot self) = Ok (Some fp) /\
    od_get (JStr "cat") fp = Some [].
Proof.
  destruct (init pivot_single_example) as [self|e] eqn:E; [|discriminate E].
  pose (pv := [("cat",
                JList [JDict [("field", JStr "cat"); ("value", JStr "A"); ("count", JInt 2)];
                       JDict [("field", JStr "cat"); ("value", JStr "B");
                              ("count", JInt 1)]])]).
  destruct (get_facet_pivot_without_nesting self [("facet_pivot", JDict pv)] pv)
    as (fp & Hfp & _ & Hcat).
  - injection E as <-. reflexivity.
  - injection E as <-. reflexivity.
  - reflexivity.
  - intros f entries Hf. cbn [pv dict_get] in Hf.
    destruct (String.eqb f "cat"); [|discriminate].
    injection Hf as <-. eexists. split; [reflexivity|].
    repeat constructor; eexists; split; reflexivity.
  - exists self, fp. split; [reflexivity|]. split; [exact Hfp|].
    apply Hcat. reflexivity.
Defined.

(** ** The metadata of a grouped response *)

Lemma group_key_dec (fs : list string) (k : string) :
  (exists f, In f fs /\ (k = (f ++ "_ngroups")%string \/ k = (f ++ "_matches")%string)) \/
  (forall f, In f fs -> k <> (f ++ "_ngroups")%string /\ k <> (f ++ "_matches")%string).
Proof.
  induction fs as [|f fs IH].
  - right. intros f [].
  - destruct IH as [(f' & Hin & Hk)|IH].
    + left. exists f'. split; [right; exact Hin | exact Hk].
    + destruct (string_dec k (f ++ "_ngroups")) as [E1|N1].
      * left. exists f. split; [left; reflexivity | left; exact E1].
      * destruct (string_dec k (f ++ "_matches")) as [E2|N2].
        -- left. exists f. split; [left; reflexivity | right; exact E2].
        -- right. intros f' [<-|Hin]; [split; assumption | apply IH; exact Hin].
Qed.

(** X17: the metadata mapping of a grouped instance holds nothing but the
    recorded counts: each of its keys is [<field>_ngroups] or
    [<field>_matches] for a field of [grouped]. *)
Theorem init_grouped_only_counts (data0 : json) (self : SolrResponse)
  (g gs : sdict json) (k : string) (v : json) :
  init data0 = Ok self ->
  contains "response" data0 = Ok false ->
  getitem data0 (JStr "grouped") = Ok (JDict g) ->
  groups self = Some gs ->
  dict_get k gs = Some v ->
  exists field,
    In field (dict_keys g) /\
    (k = (field ++ "_ngroups")%string \/ k = (field ++ "_matches")%string).
Proof.
  intros Hinit Hc Hg Hgs Hk. apply init_inv in Hinit.
  destruct Hinit as (h & qt & x & d & d' & _ & _ & Hx & _ & _ & ->).
  cbn [groups] in Hgs.
  unfold extract in Hx. rewrite Hc in Hx. cbn [bind] in Hx.
  destruct (getitem_str_dict _ _ _ Hg) as (dd & -> & Hdd).
  cbn [contains bind] in Hx. rewrite (dict_get_mem _ _ _ Hdd) in Hx.
  cbn [getitem] in Hx. rewrite Hdd in Hx. cbn [bind iter] in Hx.
  destruct (grouped_loop_groups _ _ _ _ _ Hx eq_refl) as (gs' & Hgs' & _ & Hframe).
  rewrite Hgs in Hgs'. injection Hgs' as <-.
  destruct (group_key_dec (dict_keys g) k) as [H|H]; [exact H|].
  rewrite (Hframe k H) in Hk. discriminate Hk.
Qed.

Lemma init_grouped_only_counts_witness :
  exists self gs,
    init grouped_example = Ok self /\
    groups self = Some gs /\
    dict_get "shop_ngroups" gs = Some (JInt 1) /\
    exists field,
      In field ["brand"; "shop"] /\
      ("shop_ngroups" = (field ++ "_ngroups")%string \/
       "shop_ngroups" = (field ++ "_matches")%string).
Proof.
  destruct (init grouped_example) as [self|e] eqn:E; [|discriminate E].
  destruct (groups self) as [gs|] eqn:Egs; [|injection E as <-; discriminate Egs].
  assert (Hk : dict_get "shop_ngroups" gs = Some (JInt 1)).
  { injection E as <-. injection Egs as <-. reflexivity. }
  exists self, gs. split; [reflexivity|]. split; [exact Egs|]. split; [exact Hk|].
  exact (init_grouped_only_counts grouped_example self
           [("brand",
             JDict [("matches", JInt 9); ("ngroups", JInt 2);
                    ("groups",
                     JList [JDict [("groupValue", JStr "acme")];
                            JDict [("groupValue", JStr "12")]])]);
            ("shop",
             JDict [("matches", JInt 9); ("ngroups", JInt 1);
                    ("groups", JList [JDict [("groupValue", JStr "44")]])])]
           gs "shop_ngroups" (JInt 1) E eq_refl eq_refl Egs Hk).
Defined.

(** ** Decimal strings read back *)

Lemma decimal_value_pos (u : Decimal.uint) :
  forall acc,
    decimal_value (Z.pos acc) (NilEmpty.string_of_uint u) =
    Z.pos (Pos.of_uint_acc u acc).
Proof.
  induction u; intro acc;
    cbn [NilEmpty.string_of_uint decimal_value Pos.of_uint_acc];
    [reflexivity | rewrite <- IHu; f_equal ..].
  all: match goal with
       | |- context [digit_value ?c] =>
           let v := eval vm_compute in (digit_value c) in
           change (digit_value c) with v
       end; lia.
Qed.

Lemma decimal_value_uint (u : Decimal.uint) :
  decimal_value 0 (NilEmpty.string_of_uint u) = Z.of_N (Pos.of_uint u).
Proof.
  induction u; cbn [NilEmpty.string_of_uint decimal_value Pos.of_uint];
    [reflexivity | exact IHu | apply (decimal_value_pos u) ..].
Qed.

Lemma all_decimal_uint (u : Decimal.uint) :
  all_chars is_decimal_char (NilEmpty.string_of_uint u) = true.
Proof.
  induction u; cbn [NilEmpty.string_of_uint all_chars];
    [reflexivity | rewrite IHu; reflexivity ..].
Qed.

Lemma encode_int_value (n : Z) :
  0 <= n ->
  encode_int n <> EmptyString /\
  all_chars is_decimal_char (encode_int n) = true /\
  decimal_value 0 (encode_int n) = n.
Proof.
  intro Hn. destruct n as [|p|p]; [repeat split; discriminate| |lia].
  unfold encode_int. cbn [Z.to_int NilZero.string_of_int].
  pose proof (Unsigned.to_uint_nonnil p) as Hnil.
  assert (E : NilZero.string_of_uint (Pos.to_uint p) =
              NilEmpty.string_of_uint (Pos.to_uint p)).
  { destruct (Pos.to_uint p); [contradiction | reflexivity ..]. }
  rewrite E. split; [|split].
  - destruct (Pos.to_uint p); [contradiction | discriminate ..].
  - apply all_decimal_uint.
  - rewrite decimal_value_uint, Unsigned.of_to. reflexivity.
Qed.

Lemma zeros_value (z : nat) (s : string) :
  decimal_value 0 (zeros z ++ s) = decimal_value 0 s /\
  all_chars is_decimal_char (zeros z ++ s) = all_chars is_decimal_char s.
Proof.
  induction z as [|z [IH1 IH2]]; [split; reflexivity|].
  cbn [zeros append decimal_value all_chars]. split; [exact IH1 | exact IH2].
Qed.

Lemma isdigit_decimal (s : string) :
  s <> EmptyString -> all_chars is_decimal_char s = true -> isdigit s = true.
Proof.
  destruct s as [|c s]; [contradiction|].
  intros _ H. unfold isdigit. apply all_decimal_digit. exact H.
Qed.

(** X18: lines 30-31 invert the decimal printing of a count: a field of a
    mapping document that holds the decimal digits of an integer [n >= 0]
    with leading zeros, no more than 4300 characters in all, holds the
    integer [n] afterwards and nothing else of the document changes; on a
    longer string of that kind line 31 raises [ValueError]. *)
Theorem normalize_field_reads_decimal (pre post : sdict json) (k : string)
  (n : Z) (z : nat) :
  0 <= n ->
  ~ In k (dict_keys pre) ->
  normalize_field (JDict (pre ++ (k, JStr (zeros z ++ encode_int n)) :: post)) (JStr k) =
  if Z.of_nat (String.length (zeros z ++ encode_int n)) <=? max_str_digits
  then Ok (JDict (pre ++ (k, JInt n) :: post))
  else Err ValueError.
Proof.
  intros Hn Hk. rewrite (normalize_field_dict pre post k _ Hk).
  destruct (encode_int_value n Hn) as (Hne & Hall & Hval).
  destruct (zeros_value z (encode_int n)) as [Hzv Hza].
  assert (Hdig : isdigit (zeros z ++ encode_int n) = true).
  { apply isdigit_decimal.
    - destruct z; [exact Hne | discriminate].
    - rewrite Hza. exact Hall. }
  cbn [coerce_ok coerce]. unfold int_accepts. rewrite Hdig, Hza, Hall, Hzv, Hval.
  reflexivity.
Qed.

Lemma normalize_field_reads_decimal_witness :
  normalize_field (JDict [("name", JStr "abc"); ("code", JStr "007")]) (JStr "code") =
  Ok (JDict [("name", JStr "abc"); ("code", JInt 7)]) /\
  normalize_field (JDict [("code", JStr (zeros 4300 ++ encode_int 7))]) (JStr "code") =
  Err ValueError.
Proof.
  split.
  - apply (normalize_field_reads_decimal [("name", JStr "abc")] [] "code" 7 2).
    + lia.
    + simpl. intros [H|[]]. discriminate H.
  - change (normalize_field
              (JDict ([] ++ ("code", JStr (zeros 4300 ++ encode_int 7)) :: []))
              (JStr "code") = Err ValueError).
    rewrite (normalize_field_reads_decimal [] [] "code" 7 4300).
    + vm_compute. reflexivity.
    + lia.
    + simpl. intros [].
Defined.
